(** * FLAML estimators: budget-aware progressive training

    A shallow embedding of [flaml/model.py]: the configuration mappers
    ([config2params]), the search-space declarators ([search_space]), the
    lenient [predict] and the budget-aware [fit] of the tree-ensemble
    estimators.

    Conventions of the embedding.
    - A Python [dict] with string keys is a [gmap string value].
    - Python scalars are the tagged union [value].
    - Wall-clock readings and durations (Python floats) are exact rationals
      [Q]; [int(x)] on a float is truncation toward zero ([Qtrunc]).
    - [time.time()] is an effect: every call consumes the next reading of a
      clock oracle [nat -> Q].
    - Library training routines are opaque: a training run is recorded as an
      event of the trace and produces a [trained] value that remembers the
      parameters and the number of rows it was fitted with.
    - A raised exception is [Raise e]; the state reached so far is kept. *)

From Stdlib Require Import ZArith QArith Qround Lia Lqa List.
From stdpp Require Import base option gmap strings list fin_maps.
Import ListNotations.

Local Open Scope string_scope.
Local Open Scope Z_scope.

(** ** Python values and exceptions *)

Inductive value : Type :=
| VNone
| VBool (b : bool)
| VInt (z : Z)
| VFloat (q : Q)
| VStr (s : string).

Inductive exn : Type :=
| KeyError (k : string)
| TypeError
| ValueError
| ZeroDivisionError
| AttributeError.

Inductive result (A : Type) : Type :=
| Ok (a : A)
| Raise (e : exn).
Arguments Ok {A} a.
Arguments Raise {A} e.

Definition rbind {A B} (r : result A) (k : A -> result B) : result B :=
  match r with
  | Ok a => k a
  | Raise e => Raise e
  end.

(** [dict.get(k, d)] *)
Definition dict_get (k : string) (d : value) (m : gmap string value) : value :=
  default d (m !! k).

(** [params[k] = params.get(k, d)] *)
Definition set_default (k : string) (d : value) (m : gmap string value)
  : gmap string value :=
  <[k := dict_get k d m]> m.

(** Rational helpers: strict comparison, Python truthiness of a float,
    [int(x)] (truncation toward zero), [round(x)] (ties to even) and float
    division, which raises on a zero divisor. *)
Definition Qltb (a b : Q) : bool := negb (Qle_bool b a).

Definition truthy (q : Q) : bool := negb (Qeq_bool q 0).

Definition Qtrunc (q : Q) : Z := Z.quot (Qnum q) (Z.pos (Qden q)).

Definition py_round (q : Q) : Z :=
  let f := Qfloor q in
  let r := (q - inject_Z f)%Q in
  if Qltb r (1 # 2) then f
  else if Qltb (1 # 2) r then f + 1
  else if Z.even f then f else f + 1.

Definition qdiv (a b : Q) : result Q :=
  if Qeq_bool b 0 then Raise ZeroDivisionError else Ok (a / b)%Q.

(** [1 << v]: integers (and booleans, which are integers in Python) shift;
    a negative count raises [ValueError], any other operand [TypeError]. *)
Definition shl_one (v : value) : result Z :=
  match v with
  | VInt z => if z <? 0 then Raise ValueError else Ok (Z.shiftl 1 z)
  | VBool b => Ok (Z.shiftl 1 (if b then 1 else 0))
  | _ => Raise TypeError
  end.

(** ** Search-space domains ([flaml.tune]) *)

Inductive domain : Type :=
| lograndint (lower upper : Z)
| loguniform (lower upper : Q)
| uniform (lower upper : Q)
| quniform (lower upper q : Q)
| choice (categories : list value)
| constant (v : value).

Record hp : Type := HP {
  hp_domain : domain;
  init_value : option value;
  low_cost_init_value : option value
}.

(** The upper bound of an integer domain. *)
Definition int_upper (d : domain) : option Z :=
  match d with
  | lograndint _ u => Some u
  | _ => None
  end.

(** ** Data, trained models and the estimator state *)

(** [X_test]: a table (dense or sparse) with a number of rows, or, for the
    forecasters, an integer number of steps. *)
Inductive xdata : Type :=
| Table (rows : nat) (sparse : bool)
| Steps (n : Z).

(** A training set: only its row count ([X_train.shape[0]], [len(y_train)])
    and sparsity are observed by the controller. *)
Record dataset : Type := Dataset { rows : nat; issparse : bool }.

(** The result of a library training run: [estimator_class] built from [p] and fitted on
    a number of rows, or [xgb.train(p, dtrain, num_boost_round, obj=obj)]. *)
Inductive trained : Type :=
| Fitted (p : gmap string value) (train_rows : nat)
| Booster (p : gmap string value) (num_boost_round : value) (obj : value)
    (train_rows : nat).

(** The attribute [n_estimators] of a scikit-learn style model is the
    constructor argument (LightGBM's default is 100). *)
Definition model_n_estimators (m : trained) : value :=
  match m with
  | Fitted p _ => dict_get "n_estimators" (VInt 100) p
  | Booster _ n _ _ => n
  end.

(** The call site of a training run inside [fit]: the first calibration
    fit, the second calibration fit, or the definitive fit. *)
Inductive site : Type := Probe1 | Probe2 | Final.

(** Attributes of [self]. *)
Record instance : Type := Instance {
  params : gmap string value;
  _model : option trained;
  _time_per_iter : option Q;
  _train_size : Z;
  _t1 : option Q;
  _t2 : option Q
}.

(** Class attributes of [CatBoostEstimator], shared by all its instances. *)
Record class_attrs : Type := ClassAttrs {
  cls_time_per_iter : option Q;
  cls_train_size : Z;
  cls_t1 : option Q;
  cls_smallmodel : option trained
}.

(** The state [fit] runs in: the instance, the class attributes, the clock
    oracle with the number of readings consumed, and the trace of training
    runs performed so far (oldest first). *)
Record state : Type := State {
  self : instance;
  CatBoostEstimator_cls : class_attrs;
  clock : nat -> Q;
  ticks : nat;
  trace : list (site * trained)
}.

(** ** The state-and-exception monad *)

Definition M (A : Type) : Type := state -> result A * state.

Definition ret {A} (a : A) : M A := fun s => (Ok a, s).

Definition raise {A} (e : exn) : M A := fun s => (Raise e, s).

Definition bind {A B} (m : M A) (k : A -> M B) : M B :=
  fun s =>
    match m s with
    | (Ok a, s') => k a s'
    | (Raise e, s') => (Raise e, s')
    end.

Declare Scope py_scope.
Delimit Scope py_scope with py.
Notation "x <- c1 ;; c2" := (bind c1 (fun x => c2))
  (at level 100, c1 at next level, right associativity) : py_scope.
Notation "c1 ;; c2" := (bind c1 (fun _ => c2))
  (at level 100, right associativity) : py_scope.
Local Open Scope py_scope.

Definition lift {A} (r : result A) : M A := fun s => (r, s).

Definition get_self : M instance := fun s => (Ok (self s), s).

Definition get_cls : M class_attrs := fun s => (Ok (CatBoostEstimator_cls s), s).

Definition put_self (i : instance) : M unit :=
  fun s => (Ok tt, State i (CatBoostEstimator_cls s) (clock s) (ticks s) (trace s)).

Definition put_cls (c : class_attrs) : M unit :=
  fun s => (Ok tt, State (self s) c (clock s) (ticks s) (trace s)).

(** [time.time()] *)
Definition time_time : M Q :=
  fun s => (Ok (clock s (ticks s)),
            State (self s) (CatBoostEstimator_cls s) (clock s) (S (ticks s)) (trace s)).

(** A library training run at call site [c]. *)
Definition record_run (c : site) (m : trained) : M unit :=
  fun s => (Ok tt, State (self s) (CatBoostEstimator_cls s) (clock s) (ticks s)
                     (trace s ++ [(c, m)])).

Definition set_params (p : gmap string value) (i : instance) : instance :=
  Instance p (_model i) (_time_per_iter i) (_train_size i) (_t1 i) (_t2 i).

Definition set_model (m : option trained) (i : instance) : instance :=
  Instance (params i) m (_time_per_iter i) (_train_size i) (_t1 i) (_t2 i).

Definition set_time_per_iter (q : option Q) (i : instance) : instance :=
  Instance (params i) (_model i) q (_train_size i) (_t1 i) (_t2 i).

Definition set_train_size (n : Z) (i : instance) : instance :=
  Instance (params i) (_model i) (_time_per_iter i) n (_t1 i) (_t2 i).

Definition set_t1 (q : option Q) (i : instance) : instance :=
  Instance (params i) (_model i) (_time_per_iter i) (_train_size i) q (_t2 i).

Definition set_t2 (q : option Q) (i : instance) : instance :=
  Instance (params i) (_model i) (_time_per_iter i) (_train_size i) (_t1 i) q.

Definition modify_self (f : instance -> instance) : M unit :=
  i <- get_self ;; put_self (f i).

Definition modify_cls (f : class_attrs -> class_attrs) : M unit :=
  c <- get_cls ;; put_cls (f c).

(** [self.params[k]] *)
Definition param (k : string) : M value :=
  i <- get_self ;;
  match params i !! k with
  | Some v => ret v
  | None => raise (KeyError k)
  end.

(** [self.params["n_estimators"]] as an iteration count: the data model
    makes it an integer. *)
Definition n_estimators_param : M Z :=
  v <- param "n_estimators" ;;
  match v with
  | VInt z => ret z
  | _ => raise TypeError
  end.

(** [self.params[k] = v] *)
Definition set_param (k : string) (v : value) : M unit :=
  modify_self (fun i => set_params (<[k := v]> (params i)) i).

(** Reading an attribute that may not have been assigned yet. *)
Definition attr {A} (o : option A) : M A :=
  match o with
  | Some a => ret a
  | None => raise AttributeError
  end.

(** [np.ones(n)] *)
Definition np_ones (n : Z) : result (list Q) :=
  if n <? 0 then Raise ValueError else Ok (repeat 1%Q (Z.to_nat n)).

(** [X_test.shape[0]] *)
Definition shape0 (X : xdata) : result Z :=
  match X with
  | Table r _ => Ok (Z.of_nat r)
  | Steps _ => Raise AttributeError
  end.

(** ** [BaseEstimator] *)

Module BaseEstimator.

(** [config2params] *)
Definition config2params (config : gmap string value) : gmap string value :=
  let params := config in
  match params !! "resources_per_trial" with
  | Some _ => delete "resources_per_trial" params
  | None => params
  end.

(** [__init__], for the [config2params] of the concrete class: the
    parameters are mapped, [_estimator_type] is popped when the
    configuration carries it, and no model is stored. *)
Definition __init__ (mapper : gmap string value -> result (gmap string value))
    (config : gmap string value) : result instance :=
  rbind (mapper config) (fun params =>
    match config !! "_estimator_type" with
    | Some _ =>
        match params !! "_estimator_type" with
        | Some _ =>
            Ok (Instance (delete "_estimator_type" params) None None 0 None None)
        | None => Raise (KeyError "_estimator_type")
        end
    | None => Ok (Instance params None None 0 None None)
    end).

(** [_fit]: one library training run with the current [self.params],
    timed by two clock readings; the model is stored. *)
Definition _fit (c : site) (X_train : dataset) : M Q :=
  current_time <- time_time ;;
  i <- get_self ;;
  let model := Fitted (params i) (rows X_train) in
  record_run c model ;;
  t <- time_time ;;
  let train_time := (t - current_time)%Q in
  modify_self (set_model (Some model)) ;;
  ret train_time.

(** [fit] *)
Definition fit (X_train : dataset) (budget : option Q) : M Q :=
  _fit Final X_train.

(** [predict], for the library's [model.predict]. *)
Definition predict (model_predict : trained -> xdata -> result (list Q))
    (i : instance) (X_test : xdata) : result (list Q) :=
  match _model i with
  | Some m => model_predict m X_test
  | None => rbind (shape0 X_test) np_ones
  end.

(** [search_space] *)
Definition search_space : list (string * hp) := [].

End BaseEstimator.

(** ** [LGBMEstimator] *)

Module LGBMEstimator.

(** [search_space] *)
Definition search_space (data_size : Z) : list (string * hp) :=
  let upper := Z.min 32768 data_size in
  [ ("n_estimators",
      HP (lograndint 4 upper) (Some (VInt 4)) (Some (VInt 4)));
    ("num_leaves",
      HP (lograndint 4 upper) (Some (VInt 4)) (Some (VInt 4)));
    ("min_child_samples",
      HP (lograndint 2 (2 ^ 7 + 1)) (Some (VInt 20)) None);
    ("learning_rate",
      HP (loguniform (1 # 1024) 1) (Some (VFloat (1 # 10))) None);
    ("log_max_bin",
      HP (lograndint 3 11) (Some (VInt 8)) None);
    ("colsample_bytree",
      HP (uniform (1 # 100) 1) (Some (VFloat 1)) None);
    ("reg_alpha",
      HP (loguniform (1 # 1024) 1024) (Some (VFloat (1 # 1024))) None);
    ("reg_lambda",
      HP (loguniform (1 # 1024) 1024) (Some (VFloat 1)) None) ].

(** [config2params] *)
Definition config2params (config : gmap string value)
  : result (gmap string value) :=
  let params := BaseEstimator.config2params config in
  match params !! "log_max_bin" with
  | Some v =>
      let params' := delete "log_max_bin" params in
      rbind (shl_one v) (fun s => Ok (<["max_bin" := VInt (s - 1)]> params'))
  | None => Ok params
  end.

(** [__init__] *)
Definition __init__ (config : gmap string value) : result instance :=
  rbind (BaseEstimator.__init__ config2params config) (fun i =>
    let i := set_params (set_default "verbose" (VInt (-1)) (params i)) i in
    Ok (set_train_size 0 (set_time_per_iter None i))).

(** [not self._time_per_iter or abs(self._train_size - X_train.shape[0]) > 4] *)
Definition stale_cache (i : instance) (X_train : dataset) : bool :=
  negb (match _time_per_iter i with Some q => truthy q | None => false end)
  || (4 <? Z.abs (_train_size i - Z.of_nat (rows X_train))).

(** The iteration count the budget affords:
    [min(n_iter, int((budget - time.time() + start_time - self._t1)
                     / self._time_per_iter + 1))]. *)
Definition max_iter (n_iter : Z) (budget now start_time t1 time_per_iter : Q)
  : result Z :=
  rbind (qdiv (budget - now + start_time - t1) time_per_iter)
    (fun x => Ok (Z.min n_iter (Qtrunc (x + 1)))).

(** The tail of [fit]: the definitive fit when the iteration count is
    positive, otherwise the count is read back from the stored model. *)
Definition finish (X_train : dataset) (start_time : Q) : M Q :=
  n <- n_estimators_param ;;
  (if 0 <? n then
     (_ <- BaseEstimator._fit Final X_train ;; ret tt)
   else
     (i <- get_self ;;
      m <- attr (_model i) ;;
      set_param "n_estimators" (model_n_estimators m))) ;;
  t <- time_time ;;
  ret (t - start_time)%Q.

(** The budget solver and what follows it. [trained] tells whether the
    calibration fits ran in this call. *)
Definition solve (X_train : dataset) (budget : option Q) (start_time : Q)
    (n_iter : Z) (trained : bool) : M Q :=
  match budget with
  | Some b =>
      if 1 <? n_iter then
        now <- time_time ;;
        i <- get_self ;;
        t1 <- attr (_t1 i) ;;
        tpi <- match _time_per_iter i with
               | Some q => ret q
               | None => raise TypeError
               end ;;
        mi <- lift (max_iter n_iter b now start_time t1 tpi) ;;
        if trained then
          n <- n_estimators_param ;;
          if mi <=? n then
            t <- time_time ;; ret (t - start_time)%Q
          else
            set_param "n_estimators" (VInt mi) ;; finish X_train start_time
        else
          set_param "n_estimators" (VInt mi) ;; finish X_train start_time
      else finish X_train start_time
  | None => finish X_train start_time
  end.

(** The calibration phase, entered with a budget [b] when the cache is
    stale and more than one iteration is requested. *)
Definition probe (X_train : dataset) (b : Q) (start_time : Q) (n_iter : Z)
  : M Q :=
  set_param "n_estimators" (VInt 1) ;;
  t1 <- BaseEstimator._fit Probe1 X_train ;;
  modify_self (set_t1 (Some t1)) ;;
  if Qle_bool b t1 || (n_iter =? 1) then ret t1
  else
    set_param "n_estimators" (VInt (Z.min n_iter 4)) ;;
    t2 <- BaseEstimator._fit Probe2 X_train ;;
    modify_self (set_t2 (Some t2)) ;;
    n <- n_estimators_param ;;
    tpi <- (if Qltb t1 t2 then lift (qdiv (t2 - t1) (inject_Z (n - 1)))
            else if truthy t1 then ret t1
            else ret (1 # 1000)%Q) ;;
    modify_self (set_time_per_iter (Some tpi)) ;;
    modify_self (set_train_size (Z.of_nat (rows X_train))) ;;
    n <- n_estimators_param ;;
    if Qle_bool b (t1 + t2) || (n_iter =? n) then
      t <- time_time ;; ret (t - start_time)%Q
    else solve X_train (Some b) start_time n_iter true.

(** [fit] *)
Definition fit (X_train : dataset) (budget : option Q) : M Q :=
  start_time <- time_time ;;
  n_iter <- n_estimators_param ;;
  i <- get_self ;;
  match budget with
  | Some b =>
      if stale_cache i X_train && (1 <? n_iter) then
        probe X_train b start_time n_iter
      else solve X_train budget start_time n_iter false
  | None => solve X_train budget start_time n_iter false
  end.

End LGBMEstimator.

(** ** [XGBoostEstimator]: the native API, used for regression *)

Module XGBoostEstimator.

(** [search_space] *)
Definition search_space (data_size : Z) : list (string * hp) :=
  let upper := Z.min 32768 data_size in
  [ ("n_estimators",
      HP (lograndint 4 upper) (Some (VInt 4)) (Some (VInt 4)));
    ("max_leaves",
      HP (lograndint 4 upper) (Some (VInt 4)) (Some (VInt 4)));
    ("min_child_weight",
      HP (loguniform (1 # 1000) 128) (Some (VInt 1)) None);
    ("learning_rate",
      HP (loguniform (1 # 1024) 1) (Some (VFloat (1 # 10))) None);
    ("subsample",
      HP (uniform (1 # 10) 1) (Some (VFloat 1)) None);
    ("colsample_bylevel",
      HP (uniform (1 # 100) 1) (Some (VFloat 1)) None);
    ("colsample_bytree",
      HP (uniform (1 # 100) 1) (Some (VFloat 1)) None);
    ("reg_alpha",
      HP (loguniform (1 # 1024) 1024) (Some (VFloat (1 # 1024))) None);
    ("reg_lambda",
      HP (loguniform (1 # 1024) 1024) (Some (VFloat 1)) None) ].

(** [config2params] *)
Definition config2params (config : gmap string value)
  : result (gmap string value) :=
  let params := BaseEstimator.config2params config in
  let params := set_default "max_depth" (VInt 0) params in
  let params := set_default "grow_policy" (VStr "lossguide") params in
  let params := set_default "booster" (VStr "gbtree") params in
  let params := set_default "use_label_encoder" (VBool false) params in
  let params := set_default "tree_method" (VStr "hist") params in
  match config !! "n_jobs" with
  | Some _ =>
      match params !! "n_jobs" with
      | Some v => Ok (<["nthread" := v]> (delete "n_jobs" params))
      | None => Raise (KeyError "n_jobs")
      end
  | None => Ok params
  end.

(** [__init__] *)
Definition __init__ (config : gmap string value) : result instance :=
  rbind (BaseEstimator.__init__ config2params config) (fun i =>
    Ok (set_params (<["verbosity" := VInt 0]> (params i)) i)).

(** [isinstance(objective, str)] *)
Definition is_str (v : value) : bool :=
  match v with VStr _ => true | _ => false end.

(** [fit]: [budget] is accepted and never read. *)
Definition fit (X_train : dataset) (budget : option Q) : M Q :=
  start_time <- time_time ;;
  (if issparse X_train then set_param "tree_method" (VStr "auto")
   else ret tt) ;;
  i <- get_self ;;
  let objective := dict_get "objective" VNone (params i) in
  obj <- (if is_str objective then ret VNone
          else
            (match params i !! "objective" with
             | Some _ =>
                 modify_self (fun i => set_params (delete "objective" (params i)) i)
             | None => ret tt
             end ;;
             ret objective)) ;;
  _n_estimators <- param "n_estimators" ;;
  modify_self (fun i => set_params (delete "n_estimators" (params i)) i) ;;
  i <- get_self ;;
  let model := Booster (params i) _n_estimators obj (rows X_train) in
  record_run Final model ;;
  modify_self (set_model (Some model)) ;;
  set_param "objective" objective ;;
  set_param "n_estimators" _n_estimators ;;
  t <- time_time ;;
  let train_time := (t - start_time)%Q in
  ret train_time.

End XGBoostEstimator.

(** ** [RandomForestEstimator] *)

Module RandomForestEstimator.

(** [search_space], for the task list [CLASSIFICATION] of [flaml.data]. *)
Definition search_space (CLASSIFICATION : list string) (data_size : Z)
    (task : string) : list (string * hp) :=
  let upper := Z.min 2048 data_size in
  let space :=
    [ ("n_estimators",
        HP (lograndint 4 upper) (Some (VInt 4)) (Some (VInt 4)));
      ("max_features",
        HP (loguniform (1 # 10) 1) (Some (VFloat 1)) None);
      ("max_leaves",
        HP (lograndint 4 (Z.min 32768 data_size)) (Some (VInt 4))
          (Some (VInt 4))) ] in
  if bool_decide (task ∈ CLASSIFICATION) then
    space ++ [ ("criterion",
                 HP (choice [VStr "gini"; VStr "entropy"]) None None) ]
  else space.

End RandomForestEstimator.

(** ** [LRL1Classifier] and [LRL2Classifier] *)

Module LRL1Classifier.

Definition search_space : list (string * hp) :=
  [ ("C", HP (loguniform (1 # 32) 32768) (Some (VFloat 1)) None) ].

Definition config2params (config : gmap string value) : gmap string value :=
  let params := BaseEstimator.config2params config in
  let params := set_default "tol" (VFloat (1 # 10000)) params in
  let params := set_default "solver" (VStr "saga") params in
  set_default "penalty" (VStr "l1") params.

End LRL1Classifier.

Module LRL2Classifier.

Definition search_space : list (string * hp) := LRL1Classifier.search_space.

Definition config2params (config : gmap string value) : gmap string value :=
  let params := BaseEstimator.config2params config in
  let params := set_default "tol" (VFloat (1 # 10000)) params in
  let params := set_default "solver" (VStr "lbfgs") params in
  set_default "penalty" (VStr "l2") params.

End LRL2Classifier.

(** ** [KNeighborsEstimator] *)

Module KNeighborsEstimator.

Definition search_space (data_size : Z) : list (string * hp) :=
  let upper := Z.min 512 (Qtrunc (inject_Z data_size / 2)) in
  [ ("n_neighbors",
      HP (lograndint 1 upper) (Some (VInt 5)) (Some (VInt 1))) ].

Definition config2params (config : gmap string value) : gmap string value :=
  let params := BaseEstimator.config2params config in
  set_default "weights" (VStr "distance") params.

End KNeighborsEstimator.

(** ** [CatBoostEstimator] *)

Module CatBoostEstimator.

(** [search_space]: [1500000 / data_size] is a true division. *)
Definition search_space (data_size : Z) : result (list (string * hp)) :=
  rbind (qdiv (inject_Z 1500000) (inject_Z data_size)) (fun r =>
    let upper := Z.max (Z.min (py_round r) 150) 12 in
    Ok [ ("early_stopping_rounds",
           HP (lograndint 10 upper) (Some (VInt 10)) (Some (VInt 10)));
         ("learning_rate",
           HP (loguniform (5 # 1000) (2 # 10)) (Some (VFloat (1 # 10))) None);
         ("n_estimators",
           HP (constant (VInt 8192)) (Some (VInt 8192)) None) ]).

(** [config2params] *)
Definition config2params (config : gmap string value) : gmap string value :=
  let params := BaseEstimator.config2params config in
  let params := set_default "n_estimators" (VInt 8192) params in
  match params !! "n_jobs" with
  | Some v => <["thread_count" := v]> (delete "n_jobs" params)
  | None => params
  end.

(** [__init__] *)
Definition __init__ (config : gmap string value) : result instance :=
  rbind (BaseEstimator.__init__ (fun c => Ok (config2params c)) config)
    (fun i =>
       let p := <["verbose" := dict_get "verbose" (VBool false) config]>
                  (params i) in
       let p := <["random_seed" := dict_get "random_seed" (VInt 10242048) config]>
                  p in
       Ok (set_params p i)).

(** [init]: the class-wide cache is reset. *)
Definition init (c : class_attrs) : class_attrs :=
  ClassAttrs None 0 (cls_t1 c) (cls_smallmodel c).

Definition set_cls_time_per_iter (q : option Q) (c : class_attrs) : class_attrs :=
  ClassAttrs q (cls_train_size c) (cls_t1 c) (cls_smallmodel c).

Definition set_cls_train_size (n : Z) (c : class_attrs) : class_attrs :=
  ClassAttrs (cls_time_per_iter c) n (cls_t1 c) (cls_smallmodel c).

Definition set_cls_t1 (q : option Q) (c : class_attrs) : class_attrs :=
  ClassAttrs (cls_time_per_iter c) (cls_train_size c) q (cls_smallmodel c).

Definition set_cls_smallmodel (m : option trained) (c : class_attrs) : class_attrs :=
  ClassAttrs (cls_time_per_iter c) (cls_train_size c) (cls_t1 c) m.

(** [not CatBoostEstimator._time_per_iter
     or abs(CatBoostEstimator._train_size - len(y_train)) > 4] *)
Definition stale_cache (c : class_attrs) (X_train : dataset) : bool :=
  negb (match cls_time_per_iter c with Some q => truthy q | None => false end)
  || (4 <? Z.abs (cls_train_size c - Z.of_nat (rows X_train))).

(** Truth value of [budget]: [None] and zero are false. *)
Definition budget_truthy (budget : option Q) : bool :=
  match budget with Some b => truthy b | None => false end.

(** [n = max(int(len(y_train) * 0.9), len(y_train) - 1000)]: the rows the
    definitive fit trains on; the rest is the evaluation set. The product
    is taken exactly. *)
Definition holdout (len : nat) : nat :=
  Z.to_nat (Z.max (Qtrunc (inject_Z (Z.of_nat len) * (9 # 10)))
                  (Z.of_nat len - 1000)).

(** [min(n_iter, int((budget - time.time() + start_time - _t1)
                     / train_times / _time_per_iter + 1))], [train_times = 1]. *)
Definition max_iter (n_iter : Z) (budget now start_time t1 time_per_iter : Q)
  : result Z :=
  rbind (qdiv ((budget - now + start_time - t1) / 1) time_per_iter)
    (fun x => Ok (Z.min n_iter (Qtrunc (x + 1)))).

(** The tail of [fit], for the library's [tree_count_]. *)
Definition finish (tree_count_ : trained -> Z) (X_train : dataset)
    (start_time : Q) : M Q :=
  n <- n_estimators_param ;;
  (if 0 <? n then
     (i <- get_self ;;
      let model := Fitted (params i) (holdout (rows X_train)) in
      record_run Final model ;;
      modify_self (set_model (Some model)))
   else
     (i <- get_self ;;
      m <- attr (_model i) ;;
      set_param "n_estimators" (VInt (tree_count_ m)))) ;;
  t <- time_time ;;
  ret (t - start_time)%Q.

(** The budget solver and what follows it. *)
Definition solve (tree_count_ : trained -> Z) (X_train : dataset)
    (budget : option Q) (start_time : Q) (n_iter : Z) (trained : bool) : M Q :=
  match budget with
  | Some b =>
      if truthy b && (4 <? n_iter) then
        now <- time_time ;;
        c <- get_cls ;;
        t1 <- attr (cls_t1 c) ;;
        tpi <- match cls_time_per_iter c with
               | Some q => ret q
               | None => raise TypeError
               end ;;
        mi <- lift (max_iter n_iter b now start_time t1 tpi) ;;
        sm <- attr (cls_smallmodel c) ;;
        modify_self (set_model (Some sm)) ;;
        if trained then
          n <- n_estimators_param ;;
          if mi <=? n then
            t <- time_time ;; ret (t - start_time)%Q
          else
            set_param "n_estimators" (VInt mi) ;;
            finish tree_count_ X_train start_time
        else
          set_param "n_estimators" (VInt mi) ;;
          finish tree_count_ X_train start_time
      else finish tree_count_ X_train start_time
  | None => finish tree_count_ X_train start_time
  end.

(** The calibration phase (measure the time per iteration). *)
Definition probe (tree_count_ : trained -> Z) (X_train : dataset) (b : Q)
    (start_time : Q) (n_iter : Z) : M Q :=
  set_param "n_estimators" (VInt 1) ;;
  i <- get_self ;;
  let small1 := Fitted (params i) (rows X_train) in
  modify_cls (set_cls_smallmodel (Some small1)) ;;
  record_run Probe1 small1 ;;
  t <- time_time ;;
  let t1 := (t - start_time)%Q in
  modify_cls (set_cls_t1 (Some t1)) ;;
  if Qle_bool b t1 || (n_iter =? 1) then
    modify_self (set_model (Some small1)) ;;
    ret t1
  else
    set_param "n_estimators" (VInt (Z.min n_iter 4)) ;;
    i <- get_self ;;
    let small2 := Fitted (params i) (rows X_train) in
    modify_cls (set_cls_smallmodel (Some small2)) ;;
    record_run Probe2 small2 ;;
    t <- time_time ;;
    n <- n_estimators_param ;;
    tpi <- lift (qdiv (t - start_time - t1) (inject_Z (n - 1))) ;;
    modify_cls (set_cls_time_per_iter (Some tpi)) ;;
    (if Qle_bool tpi 0 then modify_cls (set_cls_time_per_iter (Some t1))
     else ret tt) ;;
    modify_cls (set_cls_train_size (Z.of_nat (rows X_train))) ;;
    t <- time_time ;;
    n <- n_estimators_param ;;
    if Qle_bool b (t - start_time) || (n_iter =? n) then
      modify_self (set_model (Some small2)) ;;
      t <- time_time ;;
      ret (t - start_time)%Q
    else solve tree_count_ X_train (Some b) start_time n_iter true.

(** [fit] *)
Definition fit (tree_count_ : trained -> Z) (X_train : dataset)
    (budget : option Q) : M Q :=
  start_time <- time_time ;;
  n_iter <- n_estimators_param ;;
  c <- get_cls ;;
  match budget with
  | Some b =>
      if stale_cache c X_train && truthy b && (4 <? n_iter) then
        probe tree_count_ X_train b start_time n_iter
      else solve tree_count_ X_train budget start_time n_iter false
  | None => solve tree_count_ X_train budget start_time n_iter false
  end.

End CatBoostEstimator.

(** ** The forecasters *)

Module Prophet.

Definition search_space : list (string * hp) :=
  [ ("changepoint_prior_scale",
      HP (loguniform (1 # 1000) (5 # 100)) (Some (VFloat (5 # 100)))
        (Some (VFloat (1 # 1000))));
    ("seasonality_prior_scale",
      HP (loguniform (1 # 100) 10) (Some (VInt 10)) None);
    ("holidays_prior_scale",
      HP (loguniform (1 # 100) 10) (Some (VInt 10)) None);
    ("seasonality_mode",
      HP (choice [VStr "additive"; VStr "multiplicative"])
        (Some (VStr "multiplicative")) None) ].

(** [predict]: an integer [X_test] is refused before the model is looked at. *)
Definition predict (model_predict : trained -> xdata -> result (list Q))
    (i : instance) (X_test : xdata) : result (list Q) :=
  match X_test with
  | Steps _ => Raise ValueError
  | Table _ _ =>
      match _model i with
      | Some m => model_predict m X_test
      | None => rbind (shape0 X_test) np_ones
      end
  end.

End Prophet.

Module ARIMA.

Definition search_space : list (string * hp) :=
  [ ("p", HP (quniform 0 10 1) (Some (VInt 2)) (Some (VInt 0)));
    ("d", HP (quniform 0 10 1) (Some (VInt 2)) (Some (VInt 0)));
    ("q", HP (quniform 0 10 1) (Some (VInt 1)) (Some (VInt 0))) ].

(** [predict], for the library's [forecast] and [predict]. *)
Definition predict (model_forecast : trained -> xdata -> result (list Q))
    (i : instance) (X_test : xdata) : result (list Q) :=
  match _model i with
  | Some m => model_forecast m X_test
  | None =>
      match X_test with
      | Steps n => np_ones n
      | Table _ _ => rbind (shape0 X_test) np_ones
      end
  end.

End ARIMA.

Module SARIMAX.

Definition search_space : list (string * hp) :=
  [ ("p", HP (quniform 0 10 1) (Some (VInt 2)) (Some (VInt 0)));
    ("d", HP (quniform 0 10 1) (Some (VInt 2)) (Some (VInt 0)));
    ("q", HP (quniform 0 10 1) (Some (VInt 1)) (Some (VInt 0)));
    ("P", HP (quniform 0 10 1) (Some (VInt 1)) (Some (VInt 0)));
    ("D", HP (quniform 0 10 1) (Some (VInt 1)) (Some (VInt 0)));
    ("Q", HP (quniform 0 10 1) (Some (VInt 1)) (Some (VInt 0)));
    ("s", HP (choice [VInt 1; VInt 4; VInt 6; VInt 12]) (Some (VInt 12)) None) ].

End SARIMAX.

(** ** The class hierarchy: method resolution *)

Inductive family : Type :=
| Base | SKLearn | LGBM | XGBoost | XGBoostSklearn | RandomForest | ExtraTree
| LRL1 | LRL2 | CatBoost | KNeighbors | ProphetF | ARIMAF | SARIMAXF.

(** [self.config2params]. [XGBoostSklearnEstimator] and
    [RandomForestEstimator] (hence [ExtraTreeEstimator]) call
    [super(BaseEstimator).config2params]: the one-argument [super] is
    unbound, so the attribute lookup raises. *)
Definition config2params (f : family) (config : gmap string value)
  : result (gmap string value) :=
  match f with
  | Base | SKLearn | ProphetF | ARIMAF | SARIMAXF =>
      Ok (BaseEstimator.config2params config)
  | LGBM => LGBMEstimator.config2params config
  | XGBoost => XGBoostEstimator.config2params config
  | XGBoostSklearn | RandomForest | ExtraTree => Raise AttributeError
  | LRL1 => Ok (LRL1Classifier.config2params config)
  | LRL2 => Ok (LRL2Classifier.config2params config)
  | CatBoost => Ok (CatBoostEstimator.config2params config)
  | KNeighbors => Ok (KNeighborsEstimator.config2params config)
  end.

(** [cls.search_space(data_size=data_size, task=task)] *)
Definition search_space (CLASSIFICATION : list string) (f : family)
    (data_size : Z) (task : string) : result (list (string * hp)) :=
  match f with
  | Base | SKLearn => Ok BaseEstimator.search_space
  | LGBM => Ok (LGBMEstimator.search_space data_size)
  | XGBoost | XGBoostSklearn => Ok (XGBoostEstimator.search_space data_size)
  | RandomForest | ExtraTree =>
      Ok (RandomForestEstimator.search_space CLASSIFICATION data_size task)
  | LRL1 => Ok LRL1Classifier.search_space
  | LRL2 => Ok LRL2Classifier.search_space
  | CatBoost => CatBoostEstimator.search_space data_size
  | KNeighbors => Ok (KNeighborsEstimator.search_space data_size)
  | ProphetF => Ok Prophet.search_space
  | ARIMAF => Ok ARIMA.search_space
  | SARIMAXF => Ok SARIMAX.search_space
  end.

(** ** The claims as the specification words them *)


(** "[search_space] never returns an integer domain whose upper bound
    exceeds [data_size]." *)
Definition upper_bounds_within (data_size : Z) (space : list (string * hp))
  : Prop :=
  Forall (fun e => forall u, int_upper (hp_domain e.2) = Some u -> u <= data_size)
    space.

(** ** Observations on a run *)

(** The training runs a call added to the trace. *)
Definition added_runs (s s' : state) (runs : list (site * trained)) : Prop :=
  trace s' = (trace s ++ runs)%list.

Definition is_final (e : site * trained) : Prop := e.1 = Final.

(** A call probed when its first run was the first calibration fit; it did
    not when every run it made was a definitive fit. *)
Definition probed (runs : list (site * trained)) : Prop :=
  exists m rest, runs = (Probe1, m) :: rest.

Definition not_probed (runs : list (site * trained)) : Prop :=
  Forall is_final runs.

(** The [k]-th clock reading from state [s] on. *)
Definition reading (s : state) (k : nat) : Q := clock s (k + ticks s)%nat.

(** The state after one clock reading. *)
Definition advance (s : state) : state :=
  State (self s) (CatBoostEstimator_cls s) (clock s) (S (ticks s)) (trace s).

(** The conditions under which [fit] enters the calibration phase. *)
Definition lgbm_probes (s : state) (X_train : dataset) (budget : option Q)
  : bool :=
  match budget, params (self s) !! "n_estimators" with
  | Some _, Some (VInt n) =>
      LGBMEstimator.stale_cache (self s) X_train && (1 <? n)
  | _, _ => false
  end.

Definition catboost_probes (s : state) (X_train : dataset)
    (budget : option Q) : bool :=
  match budget, params (self s) !! "n_estimators" with
  | Some b, Some (VInt n) =>
      CatBoostEstimator.stale_cache (CatBoostEstimator_cls s) X_train
      && truthy b && (4 <? n)
  | _, _ => false
  end.

(** The estimate [LGBMEstimator.fit] caches from the two calibration times
    and the iteration count of the second calibration fit. *)
Definition lgbm_estimate (t1 t2 : Q) (n : Z) : Q :=
  if Qltb t1 t2 then ((t2 - t1) / inject_Z (n - 1))%Q
  else if truthy t1 then t1
  else (1 # 1000)%Q.

(** The estimate [CatBoostEstimator.fit] caches: [t1] is the time from
    the start of the call to the end of the first calibration fit, [t2] the
    time from the start to the end of the second. *)
Definition catboost_estimate (t1 t2 : Q) (n : Z) : Q :=
  let tpi := ((t2 - t1) / inject_Z (n - 1))%Q in
  if Qle_bool tpi 0 then t1 else tpi.

(** A clock that never runs backwards. *)
Definition monotone (ck : nat -> Q) : Prop :=
  forall i, (ck i <= ck (S i))%Q.

(** ** Sample inputs *)

Definition sample_config : gmap string value :=
  <["log_max_bin" := VInt 8]> (<["n_estimators" := VInt 100]>
    (<["resources_per_trial" := VInt 1]> ∅)).

(** A clock given by its first readings; it then stays at the last one. *)
Definition clock_of (l : list Q) : nat -> Q :=
  fun i => nth i l (List.last l 0%Q).

Definition no_class_cache : class_attrs := ClassAttrs None 0 None None.

Definition start_state (i : instance) (ck : nat -> Q) : state :=
  State i no_class_cache ck 0 [].

(** A fresh instance with the given configuration, before any [fit]. *)
Definition unfitted (config : gmap string value) : instance :=
  Instance config None None 0 None None.

Definition X1000 : dataset := Dataset 1000 false.

Definition X2000 : dataset := Dataset 2000 false.

Definition xgb_params : gmap string value :=
  <["n_estimators" := VInt 50]> (<["objective" := VStr "reg:squarederror"]>
    (<["tree_method" := VStr "hist"]> ∅)).

Definition lgbm_params (n : Z) : gmap string value :=
  <["n_estimators" := VInt n]> (<["verbose" := VInt (-1)]> ∅).

Definition cat_params (n : Z) : gmap string value :=
  <["n_estimators" := VInt n]> (<["verbose" := VBool false]> ∅).

(** The library's [tree_count_], taken here as the number of iterations the
    model was built with. *)
Definition tree_count_of (m : trained) : Z :=
  match model_n_estimators m with
  | VInt z => z
  | _ => 0
  end.

(** Three calls of [LGBMEstimator.fit] on one estimator, read off one
    clock: the first takes 5s and 8s for its calibration fits. *)
Definition lgbm_clock : nat -> Q :=
  clock_of [0; 0; 5; 5; 13; 13; 13; 80; 80;
            100; 100; 100; 101; 101; 200; 200; 201; 201]%Q.

Definition lgbm_s0 : state := start_state (unfitted (lgbm_params 100)) lgbm_clock.

Definition lgbm_s1 : state := (LGBMEstimator.fit X1000 (Some 100%Q) lgbm_s0).2.

(** Two calls of [CatBoostEstimator.fit]: the calibration fits end 0.3s and
    1.2s after the start of the first call. *)
Definition catboost_clock : nat -> Q :=
  clock_of [0; 3 # 10; 12 # 10; 12 # 10; 12 # 10; 50; 51]%Q.

Definition catboost_s0 : state :=
  start_state (unfitted (cat_params 8192)) catboost_clock.

(** A clock too coarse to see the calibration fits: every reading is the
    same. *)
Definition frozen_clock : nat -> Q := clock_of [100%Q].

Definition catboost_s1 : state :=
  (CatBoostEstimator.fit tree_count_of X1000 (Some 100%Q) catboost_s0).2.

Definition lgbm_s2 : state :=
  (LGBMEstimator.fit X1000 (Some (11 # 2)%Q) lgbm_s1).2.

(** The runs between two states of one execution. *)
Definition runs_between (s s' : state) : list (site * trained) :=
  drop (length (trace s)) (trace s').

(** * Further parts of [flaml/model.py] *)

(** ** Assertions *)

(** A function guarded by [assert]: the assertion fails with its message,
    or the body runs. *)
Inductive checked (A : Type) : Type :=
| AssertionError (msg : string)
| Passed (a : A).
Arguments AssertionError {A} msg.
Arguments Passed {A} a.

(** ** Memory size declarators ([size]) *)

(** Truth value of a Python scalar. *)
Definition value_truthy (v : value) : bool :=
  match v with
  | VNone => false
  | VBool b => b
  | VInt z => negb (z =? 0)
  | VFloat q => truthy q
  | VStr s => negb (String.eqb s "")
  end.

(** [int(round(v))] *)
Definition int_round (v : value) : result Z :=
  match v with
  | VInt z => Ok z
  | VBool b => Ok (if b then 1 else 0)
  | VFloat q => Ok (py_round q)
  | _ => Raise TypeError
  end.

(** [config[k]] *)
Definition dict_item (k : string) (m : gmap string value) : result value :=
  match m !! k with
  | Some v => Ok v
  | None => Raise (KeyError k)
  end.

Module Size.

(** [LGBMEstimator.size]:
    [config.get("num_leaves") or config["max_leaves"]] takes [max_leaves]
    when [num_leaves] is absent or falsy. *)
Definition lgbm (config : gmap string value) : result Q :=
  rbind (match config !! "num_leaves" with
         | Some v => if value_truthy v then Ok v
                     else dict_item "max_leaves" config
         | None => dict_item "max_leaves" config
         end) (fun leaves =>
  rbind (int_round leaves) (fun num_leaves =>
  rbind (dict_item "n_estimators" config) (fun n =>
  rbind (int_round n) (fun n_estimators =>
    Ok ((inject_Z (num_leaves * 3 + (num_leaves - 1) * 4) + 1)
        * inject_Z n_estimators * 8)%Q)))).

End Size.

(** ** Construction of the remaining estimator classes *)



Module Construct.




End Construct.

(** ** [predict_proba] *)

(** [BaseEstimator.predict_proba], for the estimator's task, the task list
    [CLASSIFICATION] of [flaml.data] and the library's
    [model.predict_proba]. *)
Definition predict_proba (CLASSIFICATION : list string) (task : string)
    (model_predict_proba : trained -> xdata -> result (list (list Q)))
    (i : instance) (X_test : xdata) : checked (result (list (list Q))) :=
  if bool_decide (task ∈ CLASSIFICATION) then
    Passed (match _model i with
            | Some m => model_predict_proba m X_test
            | None => Raise AttributeError
            end)
  else AssertionError "predict_prob() only for classification task.".

(** ** [TransformersEstimator._split_train_val] *)

(** The row counts of the training and validation parts: the given
    validation data when both [X_val] and [y_val] are passed, otherwise the
    trailing slice after [n = max(int(len * 0.9), len - 1000)] rows. *)
Definition _split_train_val (len : nat) (X_val y_val : option nat)
  : nat * nat :=
  match X_val, y_val with
  | Some v, Some _ => (len, v)
  | _, _ =>
      let n := CatBoostEstimator.holdout len in
      (n, (len - n)%nat)
  end.

(** ** Switching the instance *)

(** Another instance takes the place of [self]; the class attributes, the
    clock and the trace are those of the process. *)
Definition with_instance (i : instance) (s : state) : state :=
  State i (CatBoostEstimator_cls s) (clock s) (ticks s) (trace s).

(** [CatBoostEstimator.init()] run in a state. *)
Definition catboost_init (s : state) : state :=
  State (self s) (CatBoostEstimator.init (CatBoostEstimator_cls s)) (clock s)
    (ticks s) (trace s).

(** The call sites of the runs a call added. *)
Definition sites (runs : list (site * trained)) : list site := map fst runs.



(** The number of rows a model was trained on. *)
Definition trained_on (m : trained) : nat :=
  match m with
  | Fitted _ r => r
  | Booster _ _ _ r => r
  end.

(** The rows a run of [CatBoostEstimator.fit] trains on: a calibration fit
    takes the whole training set, the definitive fit the part before the
    evaluation set. *)
Definition catboost_rows (X_train : dataset) (e : site * trained) : Prop :=
  trained_on e.2 = match e.1 with
                   | Final => CatBoostEstimator.holdout (rows X_train)
                   | _ => rows X_train
                   end.

(** ** Predicates of the further properties *)

(** The stored model and the iteration count in [params] agree. *)
Definition count_matches_model (s : state) : Prop :=
  exists m, _model (self s) = Some m
    /\ params (self s) !! "n_estimators" = Some (model_n_estimators m).


(** The families whose search space is bounded by the number of rows. *)
Definition tree_family (f : family) : bool :=
  match f with
  | LGBM | XGBoost | XGBoostSklearn | RandomForest | ExtraTree => true
  | _ => false
  end.

(** ** Sample inputs of the further properties *)

(** An estimator asked for 3 iterations, on the clock of [lgbm_s0]. *)
Definition lgbm_small_s0 : state :=
  start_state (unfitted (lgbm_params 3)) lgbm_clock.

(** An estimator on a clock that stands still. *)
Definition lgbm_frozen_s0 : state :=
  start_state (unfitted (lgbm_params 100)) frozen_clock.

Definition xgb_s0 : state :=
  start_state (unfitted xgb_params) (clock_of [0; 7]%Q).

(** An estimator whose configuration lacks [n_estimators]. *)
Definition xgb_empty_s0 : state :=
  start_state (unfitted (<["objective" := VInt 0]> ∅)) (clock_of [0; 7]%Q).

(** A second CatBoost estimator, asked for 500 iterations. *)
Definition other_catboost : instance := unfitted (cat_params 500).

(** A second LightGBM estimator, as its constructor leaves it. *)
Definition other_lgbm : instance := unfitted (lgbm_params 100).

Definition size_config : gmap string value :=
  <["num_leaves" := VInt 0]> (<["max_leaves" := VInt 4]>
    (<["n_estimators" := VInt 4]> ∅)).

(** * Properties *)

(** Symbolic execution of the monadic code: the primitives are unfolded and
    the state is computed, leaving dictionary lookups and arithmetic tests
    for the hypotheses to decide. *)
Ltac unf_prim :=
  unfold BaseEstimator.fit, BaseEstimator._fit, n_estimators_param, param,
    set_param, modify_self, modify_cls, attr, bind, ret, raise, lift,
    get_self, get_cls, put_self, put_cls, time_time, record_run, reading,
    added_runs in *.

Ltac unf :=
  unfold LGBMEstimator.fit, LGBMEstimator.solve, LGBMEstimator.finish,
    LGBMEstimator.probe, CatBoostEstimator.fit, CatBoostEstimator.solve,
    CatBoostEstimator.finish, CatBoostEstimator.probe, XGBoostEstimator.fit
    in *;
  unf_prim.

Ltac sim :=
  cbn -[lookup insert delete Qle_bool Qeq_bool Qminus Qplus Qdiv Qmult Qle
        Qlt Z.ltb Z.leb Z.eqb Z.min Z.max Z.abs Z.of_nat Z.sub Z.add truthy
        Qltb Qtrunc inject_Z qdiv dict_get
        LGBMEstimator.max_iter LGBMEstimator.stale_cache
        CatBoostEstimator.max_iter CatBoostEstimator.stale_cache
        CatBoostEstimator.holdout LGBMEstimator.solve LGBMEstimator.finish
        LGBMEstimator.probe CatBoostEstimator.solve CatBoostEstimator.finish
        CatBoostEstimator.probe lgbm_estimate catboost_estimate] in *.

(** Case analysis on every test the code makes. *)
Ltac crunch := repeat (sim; first [ progress simplify_eq | case_match ]).

(** The runs a call added: none, or one definitive fit. *)
Ltac runs_final :=
  first [ exists []; split; [by rewrite app_nil_r | constructor]
        | eexists [_]; split; [reflexivity | repeat constructor] ].


(** Closed facts about concrete runs: every conjunct is evaluated. *)
Ltac conjuncts tac :=
  repeat match goal with |- _ /\ _ => split; [tac|] end.

Ltac evaluate := conjuncts ltac:(vm_compute; reflexivity); vm_compute; reflexivity.
(** ** Properties of the configuration mappers *)

Section ConfigFacts.
Implicit Types (c p : gmap string value).

Lemma set_default_present k d c v :
  c !! k = Some v -> set_default k d c = c.
Proof.
  intros H. unfold set_default, dict_get. rewrite H. cbn.
  by apply insert_id.
Qed.

Lemma set_default_lookup k d c : is_Some (set_default k d c !! k).
Proof. unfold set_default. rewrite lookup_insert_eq. eauto. Qed.

Lemma set_default_lookup_ne k k' d c :
  k <> k' -> set_default k d c !! k' = c !! k'.
Proof. intros H. unfold set_default. by rewrite lookup_insert_ne. Qed.

Lemma set_default_idem k d c :
  set_default k d (set_default k d c) = set_default k d c.
Proof.
  destruct (set_default_lookup k d c) as [v Hv].
  by apply set_default_present with v.
Qed.

Lemma set_default_comm k1 d1 k2 d2 c :
  k1 <> k2 ->
  set_default k1 d1 (set_default k2 d2 c)
  = set_default k2 d2 (set_default k1 d1 c).
Proof.
  intros H. unfold set_default, dict_get.
  rewrite !lookup_insert_ne by congruence.
  by apply insert_insert_ne.
Qed.

Lemma base_lookup_rpt c : BaseEstimator.config2params c !! "resources_per_trial" = None.
Proof.
  unfold BaseEstimator.config2params.
  destruct (c !! "resources_per_trial") eqn:E; [|done].
  apply lookup_delete_eq.
Qed.

Lemma base_lookup_ne c k :
  k <> "resources_per_trial" -> BaseEstimator.config2params c !! k = c !! k.
Proof.
  intros H. unfold BaseEstimator.config2params.
  destruct (c !! "resources_per_trial") eqn:E; [|done].
  by rewrite lookup_delete_ne.
Qed.

Lemma base_fixed c :
  c !! "resources_per_trial" = None -> BaseEstimator.config2params c = c.
Proof. intros H. unfold BaseEstimator.config2params. by rewrite H. Qed.

Lemma base_idem c : BaseEstimator.config2params (BaseEstimator.config2params c) = BaseEstimator.config2params c.
Proof. apply base_fixed, base_lookup_rpt. Qed.

End ConfigFacts.

(** Lookup of a key through the layers a mapper builds. *)
Ltac map_lookup :=
  repeat first
    [ rewrite lookup_insert_eq
    | rewrite lookup_delete_eq
    | rewrite lookup_insert_ne by discriminate
    | rewrite lookup_delete_ne by discriminate
    | rewrite set_default_lookup_ne by discriminate
    | rewrite base_lookup_rpt
    | rewrite base_lookup_ne by discriminate ].

Section ConfigIdempotent.
Implicit Types (c p : gmap string value).

Lemma lgbm_fixed p :
  p !! "resources_per_trial" = None -> p !! "log_max_bin" = None ->
  LGBMEstimator.config2params p = Ok p.
Proof.
  intros H1 H2. unfold LGBMEstimator.config2params. rewrite (base_fixed _ H1).
  by rewrite H2.
Qed.

Lemma lgbm_idem c p : LGBMEstimator.config2params c = Ok p -> LGBMEstimator.config2params p = Ok p.
Proof.
  unfold LGBMEstimator.config2params.
  destruct (BaseEstimator.config2params c !! "log_max_bin") as [v|] eqn:E.
  - destruct (shl_one v) as [s|e]; cbn; [|discriminate].
    intros [= <-]. apply lgbm_fixed; by map_lookup.
  - intros [= <-]. apply lgbm_fixed; [apply base_lookup_rpt | done].
Qed.

Lemma xgboost_fixed p :
  p !! "resources_per_trial" = None ->
  is_Some (p !! "max_depth") -> is_Some (p !! "grow_policy") ->
  is_Some (p !! "booster") -> is_Some (p !! "use_label_encoder") ->
  is_Some (p !! "tree_method") -> p !! "n_jobs" = None ->
  XGBoostEstimator.config2params p = Ok p.
Proof.
  intros H0 [? H1] [? H2] [? H3] [? H4] [? H5] H6. unfold XGBoostEstimator.config2params.
  rewrite (base_fixed _ H0).
  rewrite (set_default_present _ _ _ _ H1), (set_default_present _ _ _ _ H2),
    (set_default_present _ _ _ _ H3), (set_default_present _ _ _ _ H4),
    (set_default_present _ _ _ _ H5).
  by rewrite H6.
Qed.

Ltac default_present :=
  match goal with
  | |- is_Some (set_default ?k _ _ !! ?k) => apply set_default_lookup
  | |- is_Some (set_default _ _ _ !! _) =>
      rewrite set_default_lookup_ne by discriminate; default_present
  | |- is_Some (<[_ := _]> _ !! _) =>
      rewrite lookup_insert_ne by discriminate; default_present
  | |- is_Some (delete _ _ !! _) =>
      rewrite lookup_delete_ne by discriminate; default_present
  end.

Lemma xgboost_idem c p : XGBoostEstimator.config2params c = Ok p -> XGBoostEstimator.config2params p = Ok p.
Proof.
  unfold XGBoostEstimator.config2params.
  destruct (c !! "n_jobs") as [w|] eqn:E.
  - match goal with |- context [match ?m !! "n_jobs" with _ => _ end] =>
      destruct (m !! "n_jobs") as [v|] eqn:E' end; [|discriminate].
    intros [= <-].
    apply xgboost_fixed; try default_present; by map_lookup.
  - intros [= <-].
    apply xgboost_fixed; try default_present; by map_lookup.
Qed.

Lemma lrl1_idem c : LRL1Classifier.config2params (LRL1Classifier.config2params c) = LRL1Classifier.config2params c.
Proof.
  set (p := LRL1Classifier.config2params c).
  assert (H0 : p !! "resources_per_trial" = None) by (subst p; unfold LRL1Classifier.config2params; by map_lookup).
  assert (H1 : is_Some (p !! "tol")) by (subst p; unfold LRL1Classifier.config2params; default_present).
  assert (H2 : is_Some (p !! "solver")) by (subst p; unfold LRL1Classifier.config2params; default_present).
  assert (H3 : is_Some (p !! "penalty")) by (subst p; unfold LRL1Classifier.config2params; default_present).
  clearbody p. destruct H1 as [? H1], H2 as [? H2], H3 as [? H3].
  unfold LRL1Classifier.config2params. rewrite (base_fixed _ H0).
  by rewrite (set_default_present _ _ _ _ H1), (set_default_present _ _ _ _ H2),
    (set_default_present _ _ _ _ H3).
Qed.

Lemma lrl2_idem c : LRL2Classifier.config2params (LRL2Classifier.config2params c) = LRL2Classifier.config2params c.
Proof.
  set (p := LRL2Classifier.config2params c).
  assert (H0 : p !! "resources_per_trial" = None) by (subst p; unfold LRL2Classifier.config2params; by map_lookup).
  assert (H1 : is_Some (p !! "tol")) by (subst p; unfold LRL2Classifier.config2params; default_present).
  assert (H2 : is_Some (p !! "solver")) by (subst p; unfold LRL2Classifier.config2params; default_present).
  assert (H3 : is_Some (p !! "penalty")) by (subst p; unfold LRL2Classifier.config2params; default_present).
  clearbody p. destruct H1 as [? H1], H2 as [? H2], H3 as [? H3].
  unfold LRL2Classifier.config2params. rewrite (base_fixed _ H0).
  by rewrite (set_default_present _ _ _ _ H1), (set_default_present _ _ _ _ H2),
    (set_default_present _ _ _ _ H3).
Qed.

Lemma kneighbors_idem c :
  KNeighborsEstimator.config2params (KNeighborsEstimator.config2params c) = KNeighborsEstimator.config2params c.
Proof.
  unfold KNeighborsEstimator.config2params at 1.
  rewrite base_fixed by (unfold KNeighborsEstimator.config2params; by map_lookup).
  unfold KNeighborsEstimator.config2params. apply set_default_idem.
Qed.

Lemma catboost_fixed p :
  p !! "resources_per_trial" = None -> is_Some (p !! "n_estimators") ->
  p !! "n_jobs" = None -> CatBoostEstimator.config2params p = p.
Proof.
  intros H0 [? H1] H2. unfold CatBoostEstimator.config2params.
  rewrite (base_fixed _ H0), (set_default_present _ _ _ _ H1).
  by rewrite H2.
Qed.

Lemma catboost_idem c :
  CatBoostEstimator.config2params (CatBoostEstimator.config2params c) = CatBoostEstimator.config2params c.
Proof.
  unfold CatBoostEstimator.config2params at 2 3.
  match goal with |- context [match ?m !! "n_jobs" with _ => _ end] =>
    destruct (m !! "n_jobs") as [v|] eqn:E end.
  - apply catboost_fixed; try default_present; by map_lookup.
  - apply catboost_fixed; try default_present; [by map_lookup | done].
Qed.

End ConfigIdempotent.

(** C7. The Configuration Mapper is idempotent: for every estimator family
    and every configuration on which [config2params] returns a parameter
    mapping, applying [config2params] to that mapping returns it unchanged. *)
Theorem config2params_idempotent (f : family) (c p : gmap string value) :
  config2params f c = Ok p -> config2params f p = Ok p.
Proof.
  destruct f; unfold config2params; try discriminate;
    try apply lgbm_idem; try apply xgboost_idem;
    intros [= <-]; f_equal;
    auto using base_idem, lrl1_idem, lrl2_idem, catboost_idem, kneighbors_idem.
Qed.

Lemma config2params_idempotent_witness :
  config2params LGBM
    (<["max_bin" := VInt 255]> (<["n_estimators" := VInt 100]> ∅))
  = Ok (<["max_bin" := VInt 255]> (<["n_estimators" := VInt 100]> ∅)).
Proof.
  apply (config2params_idempotent LGBM sample_config).
  vm_compute. reflexivity.
Defined.

(** C8. For a configuration whose [log_max_bin] is the integer [v], the
    LGBM mapper evaluates [(1 << v) - 1]: for [v >= 0] it returns a mapping
    without [log_max_bin] whose [max_bin] is exactly [(1 << v) - 1]
    (that is, [2^v - 1]); for [v < 0] the shift itself raises and no mapping
    is produced. *)
Theorem lgbm_log_max_bin (c : gmap string value) (v : Z) :
  c !! "log_max_bin" = Some (VInt v) ->
  (0 <= v ->
     exists p, config2params LGBM c = Ok p
       /\ p !! "log_max_bin" = None
       /\ p !! "max_bin" = Some (VInt (Z.shiftl 1 v - 1))
       /\ Z.shiftl 1 v - 1 = 2 ^ v - 1)
  /\ (v < 0 -> config2params LGBM c = Raise ValueError).
Proof.
  intros Hc. cbn. unfold LGBMEstimator.config2params.
  rewrite base_lookup_ne by discriminate. rewrite Hc. cbn.
  split; intros Hv.
  - destruct (Z.ltb_spec v 0) as [?|_]; [lia|]. cbn.
    eexists. split; [reflexivity|]. repeat split; map_lookup; try done.
    by rewrite Z.shiftl_1_l.
  - destruct (Z.ltb_spec v 0) as [_|?]; [done | lia].
Qed.

Lemma lgbm_log_max_bin_witness :
  exists p, config2params LGBM sample_config = Ok p
    /\ p !! "log_max_bin" = None
    /\ p !! "max_bin" = Some (VInt (Z.shiftl 1 8 - 1))
    /\ Z.shiftl 1 8 - 1 = 2 ^ 8 - 1.
Proof.
  apply (lgbm_log_max_bin sample_config 8); [reflexivity | lia].
Defined.

(** Whatever the value stored under [log_max_bin], the key itself is never
    part of the mapper's output. *)
Lemma lgbm_never_forwards_log_max_bin (c p : gmap string value) :
  LGBMEstimator.config2params c = Ok p -> p !! "log_max_bin" = None.
Proof.
  unfold LGBMEstimator.config2params.
  destruct (BaseEstimator.config2params c !! "log_max_bin") as [v|] eqn:E.
  - destruct (shl_one v); cbn; [|discriminate]. intros [= <-]. by map_lookup.
  - by intros [= <-].
Qed.

(** ** [predict] before any fit *)

Lemma np_ones_rows (n : nat) : np_ones (Z.of_nat n) = Ok (repeat 1%Q n).
Proof.
  unfold np_ones. destruct (Z.ltb_spec (Z.of_nat n) 0) as [H|_]; [lia|].
  by rewrite Nat2Z.id.
Qed.



(** [ARIMA.predict] also accepts a number of steps, and answers with that
    many ones; [Prophet.predict] refuses it whether fitted or not. *)
Lemma arima_predict_steps_before_fit model_predict (i : instance) (k : nat) :
  _model i = None ->
  ARIMA.predict model_predict i (Steps (Z.of_nat k)) = Ok (repeat 1%Q k).
Proof. intros Hm. unfold ARIMA.predict. rewrite Hm. apply np_ones_rows. Qed.

Lemma prophet_predict_steps model_predict (i : instance) (k : Z) :
  Prophet.predict model_predict i (Steps k) = Raise ValueError.
Proof. reflexivity. Qed.

(** ** [XGBoostEstimator.fit] *)

(** C10. Whatever the budget, [XGBoostEstimator.fit] performs exactly one
    training run, with the complete [n_estimators] as its number of
    rounds; it returns, and afterwards [self.params] holds the
    [n_estimators] and the [objective] it held before. *)
Theorem xgboost_fit_one_full_run (X_train : dataset) (budget : option Q)
    (s : state) (n : value) :
  params (self s) !! "n_estimators" = Some n ->
  exists s' p obj,
    XGBoostEstimator.fit X_train budget s
      = (Ok (reading s 1 - reading s 0)%Q, s')
    /\ added_runs s s' [(Final, Booster p n obj (rows X_train))]
    /\ _model (self s') = Some (Booster p n obj (rows X_train))
    /\ params (self s') !! "n_estimators" = Some n
    /\ dict_get "objective" VNone (params (self s'))
       = dict_get "objective" VNone (params (self s))
    /\ (forall v, params (self s) !! "objective" = Some v ->
                  params (self s') !! "objective" = Some v)
    /\ XGBoostEstimator.fit X_train budget s = XGBoostEstimator.fit X_train None s.
Proof.
  intros Hn. destruct s as [[p m tpi ts t1 t2] c ck tk tr]. sim.
  unf. sim.
  destruct (issparse X_train); sim;
    destruct (XGBoostEstimator.is_str _) eqn:Hs; sim; map_lookup;
    try (destruct (p !! "objective") as [o|] eqn:Ho; sim; map_lookup);
    rewrite Hn; sim;
    (eexists _, _, _; split; [reflexivity|]; sim;
     repeat split; try reflexivity;
     [ by map_lookup
     | unfold dict_get; by map_lookup
     | intros v Hv; unfold dict_get; map_lookup;
       rewrite ?Ho, ?Hv; simpl; congruence ]).
Qed.

Lemma xgboost_fit_one_full_run_witness :
  exists s' p obj,
    XGBoostEstimator.fit X1000 (Some 0%Q)
        (start_state (unfitted xgb_params) (clock_of [0; 7]%Q))
      = (Ok (reading (start_state (unfitted xgb_params) (clock_of [0; 7]%Q)) 1
             - reading (start_state (unfitted xgb_params) (clock_of [0; 7]%Q)) 0)%Q,
         s')
    /\ added_runs (start_state (unfitted xgb_params) (clock_of [0; 7]%Q)) s'
         [(Final, Booster p (VInt 50) obj (rows X1000))]
    /\ _model (self s') = Some (Booster p (VInt 50) obj (rows X1000))
    /\ params (self s') !! "n_estimators" = Some (VInt 50)
    /\ dict_get "objective" VNone (params (self s'))
       = dict_get "objective" VNone
           (params (self (start_state (unfitted xgb_params) (clock_of [0; 7]%Q))))
    /\ (forall v,
          params (self (start_state (unfitted xgb_params) (clock_of [0; 7]%Q)))
            !! "objective" = Some v ->
          params (self s') !! "objective" = Some v)
    /\ XGBoostEstimator.fit X1000 (Some 0%Q)
         (start_state (unfitted xgb_params) (clock_of [0; 7]%Q))
       = XGBoostEstimator.fit X1000 None
           (start_state (unfitted xgb_params) (clock_of [0; 7]%Q)).
Proof.
  apply (xgboost_fit_one_full_run X1000 (Some 0%Q)
           (start_state (unfitted xgb_params) (clock_of [0; 7]%Q)) (VInt 50)).
  reflexivity.
Defined.

(** ** Search spaces *)


Lemma catboost_search_space_exceeds_data_size :
  exists sp,
    search_space ["binary"; "multi"] CatBoost 50 "binary" = Ok sp
    /\ In ("early_stopping_rounds",
           HP (lograndint 10 150) (Some (VInt 10)) (Some (VInt 10))) sp
    /\ ~ upper_bounds_within 50 sp.
Proof.
  eexists. split; [vm_compute; reflexivity|]. split.
  - cbn. auto.
  - unfold upper_bounds_within. intros H.
    apply Forall_cons_1 in H as [H _].
    specialize (H 150 eq_refl). lia.
Qed.

Lemma Qtrunc_half (n : Z) : Qtrunc (inject_Z n / 2) = Z.quot n 2.
Proof. unfold Qtrunc. cbn. by rewrite Z.mul_1_r. Qed.



(** ** No budget, or a single requested iteration *)

(** C5, as stated, fails for a requested count below 1: with
    [n_estimators = 0] and no budget, [fit] on a fresh estimator trains
    nothing (the count is to be read back from a stored model, and there is
    none). *)
Lemma direct_fit_needs_positive_count :
  exists s',
    LGBMEstimator.fit X1000 None
      (start_state (unfitted (lgbm_params 0)) (clock_of [0; 1; 2; 3]%Q))
    = (Raise AttributeError, s')
    /\ trace s' = [].
Proof. eexists. split; [vm_compute; reflexivity | reflexivity]. Qed.

(** C5, amended. When [budget] is [None] or the requested count is at most
    1, and the count is positive, [fit] makes no calibration fit: it
    performs exactly one definitive training run, with the parameters (so
    the full iteration count) it was called with, and returns. This holds
    for [LGBMEstimator.fit], for [CatBoostEstimator.fit] (on its training
    split) and for [BaseEstimator.fit]. *)
Theorem direct_fit_without_budget (tree_count_ : trained -> Z)
    (X_train : dataset) (budget : option Q) (s : state) (n : Z) :
  params (self s) !! "n_estimators" = Some (VInt n) ->
  budget = None \/ n <= 1 ->
  1 <= n ->
  (exists s',
     LGBMEstimator.fit X_train budget s = (Ok (reading s 3 - reading s 0)%Q, s')
     /\ added_runs s s' [(Final, Fitted (params (self s)) (rows X_train))]
     /\ params (self s') = params (self s))
  /\ (exists s',
        CatBoostEstimator.fit tree_count_ X_train budget s
          = (Ok (reading s 1 - reading s 0)%Q, s')
        /\ added_runs s s'
             [(Final, Fitted (params (self s))
                        (CatBoostEstimator.holdout (rows X_train)))]
        /\ params (self s') = params (self s))
  /\ (exists s',
        BaseEstimator.fit X_train budget s = (Ok (reading s 1 - reading s 0)%Q, s')
        /\ added_runs s s' [(Final, Fitted (params (self s)) (rows X_train))]
        /\ params (self s') = params (self s)).
Proof.
  intros Hn Hb Hpos. destruct s as [[p m tpi ts t1 t2] c ck tk tr]. sim.
  assert (Hgt : (0 <? n) = true) by (apply Z.ltb_lt; lia).
  split; [|split].
  - unf. sim. rewrite Hn. sim.
    destruct Hb as [-> | Hle].
    + sim. rewrite Hn. sim. rewrite Hgt. sim. eauto.
    + assert (Hlt : (1 <? n) = false) by (apply Z.ltb_ge; lia).
      destruct budget as [b|]; rewrite ?Hlt, ?andb_false_r; sim;
        rewrite Hn; sim; rewrite Hgt; sim; eauto.
  - unf. sim. rewrite Hn. sim.
    destruct Hb as [-> | Hle].
    + sim. rewrite Hn. sim. rewrite Hgt. sim. eauto.
    + assert (Hlt : (4 <? n) = false) by (apply Z.ltb_ge; lia).
      destruct budget as [b|]; rewrite ?Hlt, ?andb_false_r; sim;
        rewrite Hn; sim; rewrite Hgt; sim; eauto.
  - unf. sim. eauto.
Qed.

Lemma direct_fit_without_budget_witness :
  (exists s',
     LGBMEstimator.fit X1000 None
       (start_state (unfitted (lgbm_params 100)) (clock_of [0; 1; 2; 3]%Q))
     = (Ok (3 - 0)%Q, s')
     /\ added_runs
          (start_state (unfitted (lgbm_params 100)) (clock_of [0; 1; 2; 3]%Q))
          s' [(Final, Fitted (lgbm_params 100) 1000)]
     /\ params (self s') = lgbm_params 100)
  /\ (exists s',
        CatBoostEstimator.fit tree_count_of X1000 None
          (start_state (unfitted (lgbm_params 100)) (clock_of [0; 1; 2; 3]%Q))
        = (Ok (1 - 0)%Q, s')
        /\ added_runs
             (start_state (unfitted (lgbm_params 100)) (clock_of [0; 1; 2; 3]%Q))
             s' [(Final, Fitted (lgbm_params 100)
                           (CatBoostEstimator.holdout 1000))]
        /\ params (self s') = lgbm_params 100)
  /\ (exists s',
        BaseEstimator.fit X1000 None
          (start_state (unfitted (lgbm_params 100)) (clock_of [0; 1; 2; 3]%Q))
        = (Ok (1 - 0)%Q, s')
        /\ added_runs
             (start_state (unfitted (lgbm_params 100)) (clock_of [0; 1; 2; 3]%Q))
             s' [(Final, Fitted (lgbm_params 100) 1000)]
        /\ params (self s') = lgbm_params 100).
Proof.
  apply (direct_fit_without_budget tree_count_of X1000 None
           (start_state (unfitted (lgbm_params 100)) (clock_of [0; 1; 2; 3]%Q))
           100).
  - reflexivity.
  - left. reflexivity.
  - lia.
Defined.

(** ** The probe that already exhausts the budget *)

(** C2. During probing, when the 1-iteration calibration fit takes
    [t1 >= budget], [fit] trains nothing more: that run is the only one, its
    model is the stored model, and [fit] returns [t1] at once. For
    [LGBMEstimator.fit] probing is entered with a budget, more than one
    requested iteration and a stale cache; [CatBoostEstimator.fit] enters it
    with a non-zero budget, more than 4 requested iterations and a stale
    class-wide cache. *)
Theorem probe_over_budget_is_final (tree_count_ : trained -> Z)
    (X_train : dataset) (b : Q) (s : state) (n : Z) :
  params (self s) !! "n_estimators" = Some (VInt n) ->
  (1 < n ->
   LGBMEstimator.stale_cache (self s) X_train = true ->
   (b <= reading s 2 - reading s 1)%Q ->
   exists s',
     LGBMEstimator.fit X_train (Some b) s
       = (Ok (reading s 2 - reading s 1)%Q, s')
     /\ added_runs s s'
          [(Probe1, Fitted (<["n_estimators" := VInt 1]> (params (self s)))
                      (rows X_train))]
     /\ _model (self s')
        = Some (Fitted (<["n_estimators" := VInt 1]> (params (self s)))
                  (rows X_train))
     /\ ticks s' = (3 + ticks s)%nat)
  /\ (4 < n ->
      truthy b = true ->
      CatBoostEstimator.stale_cache (CatBoostEstimator_cls s) X_train = true ->
      (b <= reading s 1 - reading s 0)%Q ->
      exists s',
        CatBoostEstimator.fit tree_count_ X_train (Some b) s
          = (Ok (reading s 1 - reading s 0)%Q, s')
        /\ added_runs s s'
             [(Probe1, Fitted (<["n_estimators" := VInt 1]> (params (self s)))
                         (rows X_train))]
        /\ _model (self s')
           = Some (Fitted (<["n_estimators" := VInt 1]> (params (self s)))
                     (rows X_train))
        /\ ticks s' = (2 + ticks s)%nat).
Proof.
  intros Hn. destruct s as [[p m tpi ts t1 t2] c ck tk tr]. sim.
  split.
  - intros Hgt Hst Hb. apply Qle_bool_iff in Hb. apply Z.ltb_lt in Hgt.
    unf. sim. rewrite Hn. sim. rewrite Hst, Hgt. sim. rewrite Hb. sim.
    eauto.
  - intros Hgt Htr Hst Hb. apply Qle_bool_iff in Hb. apply Z.ltb_lt in Hgt.
    unf. sim. rewrite Hn. sim. rewrite Hst, Htr, Hgt. sim. rewrite Hb. sim.
    eauto.
Qed.

Lemma probe_over_budget_is_final_witness :
  (exists s',
     LGBMEstimator.fit X1000 (Some (5 # 100))
       (start_state (unfitted (lgbm_params 100))
          (clock_of [0; 0; 2 # 10; 2 # 10]%Q))
     = (Ok ((2 # 10) - 0)%Q, s')
     /\ added_runs
          (start_state (unfitted (lgbm_params 100))
             (clock_of [0; 0; 2 # 10; 2 # 10]%Q))
          s' [(Probe1, Fitted (<["n_estimators" := VInt 1]> (lgbm_params 100))
                         1000)]
     /\ _model (self s')
        = Some (Fitted (<["n_estimators" := VInt 1]> (lgbm_params 100)) 1000)
     /\ ticks s' = 3%nat)
  /\ (exists s',
        CatBoostEstimator.fit tree_count_of X1000 (Some (5 # 100))
          (start_state (unfitted (lgbm_params 100))
             (clock_of [0; 2 # 10; 2 # 10]%Q))
        = (Ok ((2 # 10) - 0)%Q, s')
        /\ added_runs
             (start_state (unfitted (lgbm_params 100))
                (clock_of [0; 2 # 10; 2 # 10]%Q))
             s' [(Probe1, Fitted (<["n_estimators" := VInt 1]> (lgbm_params 100))
                            1000)]
        /\ _model (self s')
           = Some (Fitted (<["n_estimators" := VInt 1]> (lgbm_params 100)) 1000)
        /\ ticks s' = 2%nat).
Proof.
  split.
  - apply (proj1 (probe_over_budget_is_final tree_count_of X1000 (5 # 100)
                    (start_state (unfitted (lgbm_params 100))
                       (clock_of [0; 0; 2 # 10; 2 # 10]%Q))
                    100 eq_refl)).
    + lia.
    + reflexivity.
    + vm_compute. discriminate.
  - apply (proj2 (probe_over_budget_is_final tree_count_of X1000 (5 # 100)
                    (start_state (unfitted (lgbm_params 100))
                       (clock_of [0; 2 # 10; 2 # 10]%Q))
                    100 eq_refl)).
    + lia.
    + reflexivity.
    + reflexivity.
    + vm_compute. discriminate.
Defined.

(** ** Rational arithmetic of the controller *)

Lemma Qltb_lt (a b : Q) : Qltb a b = true <-> (a < b)%Q.
Proof.
  unfold Qltb. rewrite negb_true_iff. split.
  - intros H. apply Qnot_le_lt. intros Hle.
    apply Qle_bool_iff in Hle. congruence.
  - intros H. destruct (Qle_bool b a) eqn:E; [|done].
    apply Qle_bool_iff in E. exfalso. by apply (Qlt_not_le a b).
Qed.

Lemma Qle_bool_false (a b : Q) : Qle_bool a b = false <-> (b < a)%Q.
Proof.
  rewrite <- Qltb_lt. unfold Qltb. by rewrite negb_true_iff.
Qed.

Lemma truthy_false (q : Q) : truthy q = false <-> (q == 0)%Q.
Proof. unfold truthy. rewrite negb_false_iff. apply Qeq_bool_iff. Qed.

Lemma truthy_true (q : Q) : truthy q = true <-> ~ (q == 0)%Q.
Proof.
  rewrite <- truthy_false. destruct (truthy q); split; congruence.
Qed.

Lemma truthy_pos (q : Q) : (0 < q)%Q -> truthy q = true.
Proof.
  intros H. apply truthy_true. intros E. rewrite E in H.
  by apply (Qlt_irrefl 0).
Qed.

Lemma qdiv_ok (a b : Q) : truthy b = true -> qdiv a b = Ok (a / b)%Q.
Proof.
  unfold truthy, qdiv. rewrite negb_true_iff. by intros ->.
Qed.

Lemma qdiv_zero (a b : Q) :
  truthy b = false -> qdiv a b = Raise ZeroDivisionError.
Proof.
  unfold truthy, qdiv. rewrite negb_false_iff. by intros ->.
Qed.

Lemma inject_Z_pos (k : Z) : 0 < k -> (0 < inject_Z k)%Q.
Proof. intros H. unfold Qlt. cbn. lia. Qed.

Lemma Qdiv_pos (a b : Q) : (0 < a)%Q -> (0 < b)%Q -> (0 < a / b)%Q.
Proof.
  intros Ha Hb. unfold Qdiv. apply Qmult_lt_0_compat; [done|].
  by apply Qinv_lt_0_compat.
Qed.

Lemma Qminus_pos (a b : Q) : (a < b)%Q -> (0 < b - a)%Q.
Proof. intros H. unfold Qminus. by rewrite <- Qlt_minus_iff. Qed.

(** The estimate cached by [LGBMEstimator.fit] is positive whenever the
    first calibration time is not negative. *)
Lemma lgbm_estimate_pos (t1 t2 : Q) (n : Z) :
  1 < n -> (0 <= t1)%Q -> (0 < lgbm_estimate t1 t2 n)%Q.
Proof.
  intros Hn Ht1. unfold lgbm_estimate.
  destruct (Qltb t1 t2) eqn:E.
  - apply Qltb_lt in E. apply Qdiv_pos; [by apply Qminus_pos|].
    apply inject_Z_pos. lia.
  - destruct (truthy t1) eqn:T; [|done].
    apply truthy_true in T. apply Qle_lteq in Ht1 as [H|H]; [done|].
    exfalso. apply T. by symmetry.
Qed.

(** Without any assumption on the clock the estimate is at least non-zero. *)
Lemma lgbm_estimate_truthy (t1 t2 : Q) (n : Z) :
  1 < n -> truthy (lgbm_estimate t1 t2 n) = true.
Proof.
  intros Hn. unfold lgbm_estimate.
  destruct (Qltb t1 t2) eqn:E.
  - apply truthy_pos. apply Qltb_lt in E.
    apply Qdiv_pos; [by apply Qminus_pos|]. apply inject_Z_pos. lia.
  - by destruct (truthy t1) eqn:T.
Qed.

(** ** [LGBMEstimator.fit]: the phases *)

Lemma truthy_inject_Z (k : Z) : 0 < k -> truthy (inject_Z k) = true.
Proof. intros H. by apply truthy_pos, inject_Z_pos. Qed.

(** [finish] and [solve] leave the cache alone and add definitive fits only. *)
Lemma lgbm_finish_frame X st s r s' :
  LGBMEstimator.finish X st s = (r, s') ->
  _time_per_iter (self s') = _time_per_iter (self s)
  /\ _train_size (self s') = _train_size (self s)
  /\ _t1 (self s') = _t1 (self s)
  /\ exists runs, added_runs s s' runs /\ not_probed runs.
Proof.
  destruct s as [[p m tpi ts t1 t2] c ck tk tr].
  unfold LGBMEstimator.finish. unf_prim. sim. intros H.
  crunch; sim; repeat split; runs_final.
Qed.

Lemma lgbm_solve_frame X budget st n trained s r s' :
  LGBMEstimator.solve X budget st n trained s = (r, s') ->
  _time_per_iter (self s') = _time_per_iter (self s)
  /\ _train_size (self s') = _train_size (self s)
  /\ _t1 (self s') = _t1 (self s)
  /\ exists runs, added_runs s s' runs /\ not_probed runs.
Proof.
  destruct s as [[p m tpi ts t1 t2] c ck tk tr].
  unfold LGBMEstimator.solve. intros H.
  destruct budget as [b|]; [destruct (1 <? n) eqn:Hn|];
    try (eapply lgbm_finish_frame in H; exact H).
  unfold LGBMEstimator.finish in H. unf_prim. sim.
  crunch; sim; repeat split; runs_final.
Qed.

(** [fit] is the calibration phase when its guard holds, and the solver
    otherwise. *)
Lemma lgbm_fit_probing X b s n :
  params (self s) !! "n_estimators" = Some (VInt n) ->
  lgbm_probes s X (Some b) = true ->
  LGBMEstimator.fit X (Some b) s
  = LGBMEstimator.probe X b (reading s 0) n (advance s).
Proof.
  intros Hn Hg. unfold lgbm_probes in Hg. rewrite Hn in Hg.
  destruct s as [[p m tpi ts t1 t2] c ck tk tr].
  unfold LGBMEstimator.fit. unf_prim. sim. rewrite Hn. sim. by rewrite Hg.
Qed.

Lemma lgbm_fit_not_probing X budget s n :
  params (self s) !! "n_estimators" = Some (VInt n) ->
  lgbm_probes s X budget = false ->
  LGBMEstimator.fit X budget s
  = LGBMEstimator.solve X budget (reading s 0) n false (advance s).
Proof.
  intros Hn Hg. unfold lgbm_probes in Hg. rewrite Hn in Hg.
  destruct s as [[p m tpi ts t1 t2] c ck tk tr].
  unfold LGBMEstimator.fit. unf_prim. sim. rewrite Hn. sim.
  destruct budget as [b|]; [|done]. by rewrite Hg.
Qed.

(** Without an integer [n_estimators] parameter, [fit] raises at once. *)
Lemma lgbm_fit_no_count X budget s r s' :
  (forall n, params (self s) !! "n_estimators" <> Some (VInt n)) ->
  LGBMEstimator.fit X budget s = (r, s') -> trace s' = trace s.
Proof.
  intros Hn. destruct s as [[p m tpi ts t1 t2] c ck tk tr].
  unfold LGBMEstimator.fit. unf_prim. sim. intros H.
  destruct (p !! "n_estimators") as [[]|] eqn:E; sim; simplify_eq; try done.
  by destruct (Hn z).
Qed.

(** The calibration phase that stops after its first fit. *)
Lemma lgbm_probe_early X b st n s :
  Qle_bool b (reading s 1 - reading s 0) = true ->
  exists s',
    LGBMEstimator.probe X b st n s = (Ok (reading s 1 - reading s 0)%Q, s')
    /\ added_runs s s'
         [(Probe1, Fitted (<["n_estimators" := VInt 1]> (params (self s)))
                     (rows X))]
    /\ params (self s') = <["n_estimators" := VInt 1]> (params (self s))
    /\ _time_per_iter (self s') = _time_per_iter (self s)
    /\ _train_size (self s') = _train_size (self s).
Proof.
  intros Hb. destruct s as [[p m tpi ts t1 t2] c ck tk tr].
  unfold LGBMEstimator.probe. unf_prim. sim. rewrite Hb. sim. eauto 10.
Qed.

(** The calibration phase that goes on to its second fit caches the
    estimate, the training-set size and the first calibration time, whatever
    happens next. *)
Lemma lgbm_probe_caches X b st n s r s' :
  1 < n ->
  Qle_bool b (reading s 1 - reading s 0) = false ->
  LGBMEstimator.probe X b st n s = (r, s') ->
  _time_per_iter (self s')
  = Some (lgbm_estimate (reading s 1 - reading s 0)
            (reading s 3 - reading s 2) (Z.min n 4))
  /\ _train_size (self s') = Z.of_nat (rows X)
  /\ _t1 (self s') = Some (reading s 1 - reading s 0)%Q
  /\ exists rest,
       added_runs s s'
         ((Probe1, Fitted (<["n_estimators" := VInt 1]> (params (self s)))
                     (rows X))
          :: (Probe2, Fitted (<["n_estimators" := VInt (Z.min n 4)]>
                                (<["n_estimators" := VInt 1]> (params (self s))))
                        (rows X))
          :: rest)
       /\ not_probed rest.
Proof.
  intros Hn Hb. destruct s as [[p m tpi ts t1 t2] c ck tk tr].
  unfold LGBMEstimator.probe. unf_prim. sim. rewrite Hb.
  assert (Hn1 : (n =? 1) = false) by (apply Z.eqb_neq; lia).
  rewrite Hn1. sim. map_lookup. sim.
  set (d1 := (ck (S tk) - ck tk)%Q).
  set (d2 := (ck (S (S (S tk))) - ck (S (S tk)))%Q).
  assert (Hq : qdiv (d2 - d1) (inject_Z (Z.min n 4 - 1))
               = Ok ((d2 - d1) / inject_Z (Z.min n 4 - 1))%Q).
  { apply qdiv_ok, truthy_inject_Z. lia. }
  unfold lgbm_estimate.
  destruct (Qltb d1 d2); [rewrite Hq | destruct (truthy d1)]; sim;
    map_lookup; sim;
    (destruct (Qle_bool b (d1 + d2) || (n =? Z.min n 4)) eqn:Hexit; sim;
     [ intros [= <- <-]; sim; repeat split; exists [];
       split; [by rewrite <- !app_assoc | constructor]
     | intros H;
       apply lgbm_solve_frame in H as (H1 & H2 & H3 & runs & H4 & H5);
       sim; repeat split; try done;
       exists runs; split; [|done]; unfold added_runs in H4; sim;
       rewrite H4; by rewrite <- !app_assoc ]).
Qed.

Lemma probed_not_final (runs : list (site * trained)) :
  probed runs -> not_probed runs -> False.
Proof.
  intros (m & rest & ->) H. apply Forall_cons_1 in H as [H _].
  unfold is_final in H. discriminate.
Qed.

Lemma added_runs_unique (s s' : state) (r1 r2 : list (site * trained)) :
  added_runs s s' r1 -> added_runs s s' r2 -> r1 = r2.
Proof.
  unfold added_runs. intros H1 H2. rewrite H1 in H2.
  by apply app_inv_head in H2.
Qed.

Lemma lgbm_probes_guard s X b n :
  params (self s) !! "n_estimators" = Some (VInt n) ->
  lgbm_probes s X (Some b)
  = LGBMEstimator.stale_cache (self s) X && (1 <? n).
Proof. intros Hn. unfold lgbm_probes. by rewrite Hn. Qed.

Lemma lgbm_probes_count s X budget :
  lgbm_probes s X budget = true ->
  exists b n, budget = Some b
    /\ params (self s) !! "n_estimators" = Some (VInt n) /\ 1 < n
    /\ LGBMEstimator.stale_cache (self s) X = true.
Proof.
  unfold lgbm_probes. destruct budget as [b|]; [|done].
  destruct (params (self s) !! "n_estimators") as [[| |n| |]|]; try done.
  intros [H1 H2]%andb_true_iff. apply Z.ltb_lt in H2. eauto 10.
Qed.

(** A call of [LGBMEstimator.fit] probes exactly when its guard holds. *)
Lemma lgbm_probed_iff_guard X budget s r s' :
  LGBMEstimator.fit X budget s = (r, s') ->
  exists runs, added_runs s s' runs
    /\ (if lgbm_probes s X budget then probed runs else not_probed runs).
Proof.
  intros Hfit. destruct (lgbm_probes s X budget) eqn:Hg.
  - destruct (lgbm_probes_count _ _ _ Hg) as (b & n & -> & Hn & Hgt & Hst).
    rewrite (lgbm_fit_probing _ _ _ _ Hn Hg) in Hfit.
    destruct (Qle_bool b (reading (advance s) 1 - reading (advance s) 0))
      eqn:Hb.
    + destruct (lgbm_probe_early X b (reading s 0) n _ Hb)
        as (s1 & H1 & H2 & _).
      rewrite H1 in Hfit. injection Hfit as <- <-.
      eexists. split; [exact H2|]. by eexists _, _.
    + destruct (lgbm_probe_caches _ _ _ _ _ _ _ Hgt Hb Hfit)
        as (_ & _ & _ & rest & H1 & _).
      eexists. split; [exact H1|]. by eexists _, _.
  - destruct (params (self s) !! "n_estimators") as [v|] eqn:Hn.
    + destruct v as [| |n| |];
        try (exists []; split; [|constructor]; unfold added_runs;
             rewrite app_nil_r; eapply lgbm_fit_no_count; [|exact Hfit];
             intros n' Hn'; congruence).
      rewrite (lgbm_fit_not_probing _ _ _ _ Hn Hg) in Hfit.
      apply lgbm_solve_frame in Hfit as (_ & _ & _ & runs & H1 & H2).
      by exists runs.
    + exists []. split; [|constructor]. unfold added_runs.
      rewrite app_nil_r. eapply lgbm_fit_no_count; [|exact Hfit].
      intros n Hn'. congruence.
Qed.

Lemma lgbm_stale_cache_eq (i i' : instance) (X X' : dataset) :
  _time_per_iter i' = _time_per_iter i -> _train_size i' = _train_size i ->
  rows X' = rows X ->
  LGBMEstimator.stale_cache i' X' = LGBMEstimator.stale_cache i X.
Proof. unfold LGBMEstimator.stale_cache. by intros -> -> ->. Qed.

Lemma lgbm_fresh_cache (i : instance) (X : dataset) (q : Q) :
  _time_per_iter i = Some q -> truthy q = true ->
  LGBMEstimator.stale_cache i X
  = (4 <? Z.abs (_train_size i - Z.of_nat (rows X))).
Proof. unfold LGBMEstimator.stale_cache. by intros -> ->. Qed.

Lemma lgbm_probes_fresh s X budget :
  LGBMEstimator.stale_cache (self s) X = false ->
  lgbm_probes s X budget = false.
Proof.
  intros H. unfold lgbm_probes. rewrite H.
  destruct budget; [|done].
  by destruct (params (self s) !! "n_estimators") as [[]|].
Qed.

Lemma lgbm_probes_single s X budget :
  params (self s) !! "n_estimators" = Some (VInt 1) ->
  lgbm_probes s X budget = false.
Proof.
  intros H. unfold lgbm_probes. rewrite H.
  destruct budget; [|done]. apply andb_false_r.
Qed.

(** With a single requested iteration, [fit] trains once and leaves the
    parameters as they were. *)
Lemma lgbm_fit_single X budget s r s' :
  params (self s) !! "n_estimators" = Some (VInt 1) ->
  LGBMEstimator.fit X budget s = (r, s') ->
  params (self s') = params (self s).
Proof.
  intros Hn. destruct s as [[p m tpi ts t1 t2] c ck tk tr].
  assert (H11 : (1 <? 1) = false) by reflexivity.
  assert (H01 : (0 <? 1) = true) by reflexivity.
  unf. sim. rewrite Hn. sim.
  destruct budget; sim; rewrite ?H11, ?andb_false_r; sim; rewrite Hn; sim;
    rewrite H01; sim; by intros [= <- <-].
Qed.

(** After a call with a positive requested count, a call on a training set
    of the same row count does not meet the probing guard. *)
Lemma lgbm_second_call_guard X b s n r s1 X' budget' :
  params (self s) !! "n_estimators" = Some (VInt n) ->
  1 <= n ->
  LGBMEstimator.fit X (Some b) s = (r, s1) ->
  rows X' = rows X ->
  lgbm_probes s1 X' budget' = false.
Proof.
  intros Hn Hpos Hfit Hrows.
  destruct (lgbm_probes s X (Some b)) eqn:Hg.
  - destruct (lgbm_probes_count _ _ _ Hg) as (b0 & n0 & [= <-] & Hn0 & Hgt & Hst).
    rewrite (lgbm_fit_probing _ _ _ _ Hn0 Hg) in Hfit.
    destruct (Qle_bool b (reading (advance s) 1 - reading (advance s) 0))
      eqn:Hb.
    + destruct (lgbm_probe_early X b (reading s 0) n0 _ Hb)
        as (s2 & H1 & _ & H2 & _).
      rewrite H1 in Hfit. injection Hfit as <- <-.
      apply lgbm_probes_single. rewrite H2. by map_lookup.
    + destruct (lgbm_probe_caches _ _ _ _ _ _ _ Hgt Hb Hfit)
        as (H1 & H2 & _).
      apply lgbm_probes_fresh.
      rewrite (lgbm_fresh_cache _ _ _ H1); [|apply lgbm_estimate_truthy; lia].
      rewrite H2, Hrows. apply Z.ltb_ge. lia.
  - rewrite (lgbm_probes_guard _ _ _ _ Hn) in Hg.
    apply andb_false_iff in Hg as [Hst|Hone].
    + rewrite (lgbm_fit_not_probing _ _ _ _ Hn) in Hfit
        by (rewrite (lgbm_probes_guard _ _ _ _ Hn), Hst; done).
      apply lgbm_solve_frame in Hfit as (H1 & H2 & _).
      apply lgbm_probes_fresh.
      rewrite <- Hst. by apply lgbm_stale_cache_eq.
    + apply Z.ltb_ge in Hone. assert (n = 1) as -> by lia.
      apply lgbm_probes_single.
      by rewrite (lgbm_fit_single _ _ _ _ _ Hn Hfit).
Qed.

(** With an estimate in the cache and more than one requested iteration, a
    budgeted call meets the probing guard exactly when the row count is
    more than 4 away from the cached size. *)
Lemma lgbm_reprobe_guard s X b q n :
  _time_per_iter (self s) = Some q -> truthy q = true ->
  params (self s) !! "n_estimators" = Some (VInt n) -> 1 < n ->
  lgbm_probes s X (Some b)
  = (4 <? Z.abs (_train_size (self s) - Z.of_nat (rows X))).
Proof.
  intros Hq Ht Hn Hgt. rewrite (lgbm_probes_guard _ _ _ _ Hn).
  rewrite (lgbm_fresh_cache _ _ _ Hq Ht).
  apply Z.ltb_lt in Hgt. rewrite Hgt. apply andb_true_r.
Qed.

(** ** The budget solver *)










(** ** [CatBoostEstimator.fit]: the phases *)

Lemma catboost_finish_frame tc X st s r s' :
  CatBoostEstimator.finish tc X st s = (r, s') ->
  CatBoostEstimator_cls s' = CatBoostEstimator_cls s
  /\ exists runs, added_runs s s' runs /\ not_probed runs.
Proof.
  destruct s as [[p m tpi ts t1 t2] c ck tk tr].
  unfold CatBoostEstimator.finish. unf_prim. sim. intros H.
  crunch; sim; repeat split; runs_final.
Qed.

Lemma catboost_solve_frame tc X budget st n trained s r s' :
  CatBoostEstimator.solve tc X budget st n trained s = (r, s') ->
  CatBoostEstimator_cls s' = CatBoostEstimator_cls s
  /\ exists runs, added_runs s s' runs /\ not_probed runs.
Proof.
  destruct s as [[p m tpi ts t1 t2] c ck tk tr].
  unfold CatBoostEstimator.solve. intros H.
  destruct budget as [b|]; [destruct (truthy b && (4 <? n)) eqn:Hn|];
    try (eapply catboost_finish_frame in H; exact H).
  unfold CatBoostEstimator.finish in H. unf_prim. sim.
  crunch; sim; repeat split; runs_final.
Qed.

(** With a zero estimate in the cache, the solver stops at its division and
    the parameters stay as they were. *)
Lemma catboost_solve_zero tc X b st n trained s q r s' :
  truthy b = true -> 4 < n ->
  cls_time_per_iter (CatBoostEstimator_cls s) = Some q -> truthy q = false ->
  CatBoostEstimator.solve tc X (Some b) st n trained s = (r, s') ->
  params (self s') = params (self s)
  /\ (is_Some (cls_t1 (CatBoostEstimator_cls s)) -> r = Raise ZeroDivisionError).
Proof.
  intros Hb Hn Hq Hz. destruct s as [[p m tpi ts t1 t2] c ck tk tr].
  apply Z.ltb_lt in Hn. unfold CatBoostEstimator.solve. rewrite Hb, Hn.
  unf_prim. sim. destruct c as [ctpi cts ct1 csm]. sim. subst ctpi.
  unfold CatBoostEstimator.max_iter.
  destruct ct1 as [t|]; sim.
  - rewrite (qdiv_zero _ _ Hz). sim. intros [= <- <-]. by split.
  - intros [= <- <-]. split; [done|]. by intros [? ?].
Qed.

Lemma catboost_fit_probing tc X b s n :
  params (self s) !! "n_estimators" = Some (VInt n) ->
  catboost_probes s X (Some b) = true ->
  CatBoostEstimator.fit tc X (Some b) s
  = CatBoostEstimator.probe tc X b (reading s 0) n (advance s).
Proof.
  intros Hn Hg. unfold catboost_probes in Hg. rewrite Hn in Hg.
  destruct s as [[p m tpi ts t1 t2] c ck tk tr].
  unfold CatBoostEstimator.fit. unf_prim. sim. rewrite Hn. sim.
  by rewrite Hg.
Qed.

Lemma catboost_fit_not_probing tc X budget s n :
  params (self s) !! "n_estimators" = Some (VInt n) ->
  catboost_probes s X budget = false ->
  CatBoostEstimator.fit tc X budget s
  = CatBoostEstimator.solve tc X budget (reading s 0) n false (advance s).
Proof.
  intros Hn Hg. unfold catboost_probes in Hg. rewrite Hn in Hg.
  destruct s as [[p m tpi ts t1 t2] c ck tk tr].
  unfold CatBoostEstimator.fit. unf_prim. sim. rewrite Hn. sim.
  destruct budget as [b|]; [|done]. by rewrite Hg.
Qed.

Lemma catboost_fit_no_count tc X budget s r s' :
  (forall n, params (self s) !! "n_estimators" <> Some (VInt n)) ->
  CatBoostEstimator.fit tc X budget s = (r, s') -> trace s' = trace s.
Proof.
  intros Hn. destruct s as [[p m tpi ts t1 t2] c ck tk tr].
  unfold CatBoostEstimator.fit. unf_prim. sim. intros H.
  destruct (p !! "n_estimators") as [[]|] eqn:E; sim; simplify_eq; try done.
  by destruct (Hn z).
Qed.

Lemma catboost_probe_early tc X b st n s :
  Qle_bool b (reading s 0 - st) = true ->
  exists s',
    CatBoostEstimator.probe tc X b st n s = (Ok (reading s 0 - st)%Q, s')
    /\ added_runs s s'
         [(Probe1, Fitted (<["n_estimators" := VInt 1]> (params (self s)))
                     (rows X))]
    /\ params (self s') = <["n_estimators" := VInt 1]> (params (self s))
    /\ _model (self s')
       = Some (Fitted (<["n_estimators" := VInt 1]> (params (self s)))
                 (rows X)).
Proof.
  intros Hb. destruct s as [[p m tpi ts t1 t2] c ck tk tr].
  unfold CatBoostEstimator.probe. unf_prim. sim. rewrite Hb. sim. eauto 10.
Qed.

(** The calibration phase that goes on to its second fit caches the
    estimate, the training-set size and the first calibration time, whatever
    happens next; when the estimate is zero, the iteration count is left at
    that of the second calibration fit. *)
Lemma catboost_probe_caches tc X b st n s r s' :
  4 < n -> truthy b = true ->
  Qle_bool b (reading s 0 - st) = false ->
  CatBoostEstimator.probe tc X b st n s = (r, s') ->
  let est := catboost_estimate (reading s 0 - st) (reading s 1 - st)
               (Z.min n 4) in
  cls_time_per_iter (CatBoostEstimator_cls s') = Some est
  /\ cls_train_size (CatBoostEstimator_cls s') = Z.of_nat (rows X)
  /\ cls_t1 (CatBoostEstimator_cls s') = Some (reading s 0 - st)%Q
  /\ (truthy est = false ->
      params (self s') !! "n_estimators" = Some (VInt (Z.min n 4)))
  /\ exists rest,
       added_runs s s'
         ((Probe1, Fitted (<["n_estimators" := VInt 1]> (params (self s)))
                     (rows X))
          :: (Probe2, Fitted (<["n_estimators" := VInt (Z.min n 4)]>
                                (<["n_estimators" := VInt 1]> (params (self s))))
                        (rows X))
          :: rest)
       /\ not_probed rest.
Proof.
  intros Hn Htb Hb. destruct s as [[p m tpi ts t1 t2] c ck tk tr].
  unfold CatBoostEstimator.probe. unf_prim. sim. rewrite Hb.
  assert (Hn1 : (n =? 1) = false) by (apply Z.eqb_neq; lia).
  rewrite Hn1. sim. map_lookup. sim.
  set (d1 := (ck tk - st)%Q). set (d2 := (ck (S tk) - st)%Q).
  assert (Hq : qdiv (d2 - d1) (inject_Z (Z.min n 4 - 1))
               = Ok ((d2 - d1) / inject_Z (Z.min n 4 - 1))%Q).
  { apply qdiv_ok, truthy_inject_Z. lia. }
  rewrite Hq. sim. unfold catboost_estimate.
  set (tpi0 := ((d2 - d1) / inject_Z (Z.min n 4 - 1))%Q).
  assert (Hn4 : (n =? Z.min n 4) = false) by (apply Z.eqb_neq; lia).
  destruct (Qle_bool tpi0 0) eqn:Hle; sim; map_lookup; sim; rewrite Hn4;
    (destruct (Qle_bool b (ck (S (S tk)) - st)) eqn:Hexit; sim;
     [ intros [= <- <-]; sim; repeat split;
       [ intros _; by map_lookup
       | exists []; split; [by rewrite <- !app_assoc | constructor] ]
     | intros H;
       pose proof H as H';
       apply catboost_solve_frame in H as (H1 & runs & H4 & H5);
       sim; rewrite H1; sim; repeat split;
       [ intros Hz;
         eapply catboost_solve_zero in H' as [H' _]; [ | done | done | reflexivity | exact Hz ];
         sim; rewrite H'; by map_lookup
       | exists runs; split; [|done]; unfold added_runs in H4; sim;
         rewrite H4; by rewrite <- !app_assoc ] ]).
Qed.

Lemma catboost_probes_guard s X b n :
  params (self s) !! "n_estimators" = Some (VInt n) ->
  catboost_probes s X (Some b)
  = CatBoostEstimator.stale_cache (CatBoostEstimator_cls s) X
    && truthy b && (4 <? n).
Proof. intros Hn. unfold catboost_probes. by rewrite Hn. Qed.

Lemma catboost_probes_count s X budget :
  catboost_probes s X budget = true ->
  exists b n, budget = Some b
    /\ params (self s) !! "n_estimators" = Some (VInt n) /\ 4 < n
    /\ truthy b = true
    /\ CatBoostEstimator.stale_cache (CatBoostEstimator_cls s) X = true.
Proof.
  unfold catboost_probes. destruct budget as [b|]; [|done].
  destruct (params (self s) !! "n_estimators") as [[| |n| |]|]; try done.
  intros [[H1 H2]%andb_true_iff H3]%andb_true_iff.
  apply Z.ltb_lt in H3. eauto 10.
Qed.

(** A call of [CatBoostEstimator.fit] probes exactly when its guard holds. *)
Lemma catboost_probed_iff_guard tc X budget s r s' :
  CatBoostEstimator.fit tc X budget s = (r, s') ->
  exists runs, added_runs s s' runs
    /\ (if catboost_probes s X budget then probed runs else not_probed runs).
Proof.
  intros Hfit. destruct (catboost_probes s X budget) eqn:Hg.
  - destruct (catboost_probes_count _ _ _ Hg)
      as (b & n & -> & Hn & Hgt & Htb & Hst).
    rewrite (catboost_fit_probing _ _ _ _ _ Hn Hg) in Hfit.
    destruct (Qle_bool b (reading (advance s) 0 - reading s 0)) eqn:Hb.
    + destruct (catboost_probe_early tc X b (reading s 0) n _ Hb)
        as (s1 & H1 & H2 & _).
      rewrite H1 in Hfit. injection Hfit as <- <-.
      eexists. split; [exact H2|]. by eexists _, _.
    + destruct (catboost_probe_caches _ _ _ _ _ _ _ _ Hgt Htb Hb Hfit)
        as (_ & _ & _ & _ & rest & H1 & _).
      eexists. split; [exact H1|]. by eexists _, _.
  - destruct (params (self s) !! "n_estimators") as [v|] eqn:Hn.
    + destruct v as [| |n| |];
        try (exists []; split; [|constructor]; unfold added_runs;
             rewrite app_nil_r; eapply catboost_fit_no_count; [|exact Hfit];
             intros n' Hn'; congruence).
      rewrite (catboost_fit_not_probing _ _ _ _ _ Hn Hg) in Hfit.
      apply catboost_solve_frame in Hfit as (_ & runs & H1 & H2).
      by exists runs.
    + exists []. split; [|constructor]. unfold added_runs.
      rewrite app_nil_r. eapply catboost_fit_no_count; [|exact Hfit].
      intros n Hn'. congruence.
Qed.

Lemma catboost_stale_cache_eq (c c' : class_attrs) (X X' : dataset) :
  c' = c -> rows X' = rows X ->
  CatBoostEstimator.stale_cache c' X' = CatBoostEstimator.stale_cache c X.
Proof. unfold CatBoostEstimator.stale_cache. by intros -> ->. Qed.

Lemma catboost_fresh_cache (c : class_attrs) (X : dataset) (q : Q) :
  cls_time_per_iter c = Some q -> truthy q = true ->
  CatBoostEstimator.stale_cache c X
  = (4 <? Z.abs (cls_train_size c - Z.of_nat (rows X))).
Proof. unfold CatBoostEstimator.stale_cache. by intros -> ->. Qed.

Lemma catboost_probes_fresh s X budget :
  CatBoostEstimator.stale_cache (CatBoostEstimator_cls s) X = false ->
  catboost_probes s X budget = false.
Proof.
  intros H. unfold catboost_probes. rewrite H.
  destruct budget; [|done].
  by destruct (params (self s) !! "n_estimators") as [[]|].
Qed.

Lemma catboost_probes_small s X budget n :
  params (self s) !! "n_estimators" = Some (VInt n) -> n <= 4 ->
  catboost_probes s X budget = false.
Proof.
  intros H Hle. unfold catboost_probes. rewrite H.
  destruct budget; [|done].
  apply Z.ltb_ge in Hle. rewrite Hle. apply andb_false_r.
Qed.

(** With at most 4 (and at least 1) requested iterations, [fit] trains
    once and leaves the parameters as they were. *)
Lemma catboost_fit_small tc X budget s n r s' :
  params (self s) !! "n_estimators" = Some (VInt n) -> 1 <= n <= 4 ->
  CatBoostEstimator.fit tc X budget s = (r, s') ->
  params (self s') = params (self s).
Proof.
  intros Hn [H1 H4]. destruct s as [[p m tpi ts t1 t2] c ck tk tr].
  assert (Hlt : (4 <? n) = false) by (apply Z.ltb_ge; lia).
  assert (Hpos : (0 <? n) = true) by (apply Z.ltb_lt; lia).
  unf. sim. rewrite Hn. sim.
  destruct budget; sim; rewrite ?Hlt, ?andb_false_r; sim; rewrite Hn; sim;
    rewrite Hpos; sim; by intros [= <- <-].
Qed.

(** After a call with a non-zero budget and a positive requested count, a
    call on a training set of the same row count does not meet the probing
    guard. *)
Lemma catboost_second_call_guard tc X b s n r s1 X' budget' :
  params (self s) !! "n_estimators" = Some (VInt n) ->
  1 <= n -> truthy b = true ->
  CatBoostEstimator.fit tc X (Some b) s = (r, s1) ->
  rows X' = rows X ->
  catboost_probes s1 X' budget' = false.
Proof.
  intros Hn Hpos Htb Hfit Hrows.
  destruct (catboost_probes s X (Some b)) eqn:Hg.
  - destruct (catboost_probes_count _ _ _ Hg)
      as (b0 & n0 & [= <-] & Hn0 & Hgt & _ & Hst).
    rewrite (catboost_fit_probing _ _ _ _ _ Hn0 Hg) in Hfit.
    destruct (Qle_bool b (reading (advance s) 0 - reading s 0)) eqn:Hb.
    + destruct (catboost_probe_early tc X b (reading s 0) n0 _ Hb)
        as (s2 & H1 & _ & H2 & _).
      rewrite H1 in Hfit. injection Hfit as <- <-.
      apply catboost_probes_small with 1; [|lia]. rewrite H2. by map_lookup.
    + destruct (catboost_probe_caches _ _ _ _ _ _ _ _ Hgt Htb Hb Hfit)
        as (H1 & H2 & _ & H3 & _).
      match type of H1 with _ = Some ?e => destruct (truthy e) eqn:Hz end.
      * apply catboost_probes_fresh.
        rewrite (catboost_fresh_cache _ _ _ H1 Hz).
        rewrite H2, Hrows. apply Z.ltb_ge. lia.
      * apply catboost_probes_small with (Z.min n0 4); [by apply H3 | lia].
  - rewrite (catboost_probes_guard _ _ _ _ Hn), Htb, andb_true_r in Hg.
    apply andb_false_iff in Hg as [Hst|Hsmall].
    + rewrite (catboost_fit_not_probing _ _ _ _ _ Hn) in Hfit
        by (rewrite (catboost_probes_guard _ _ _ _ Hn), Hst; done).
      apply catboost_solve_frame in Hfit as (H1 & _).
      apply catboost_probes_fresh.
      rewrite <- Hst. by apply catboost_stale_cache_eq.
    + apply Z.ltb_ge in Hsmall.
      apply catboost_probes_small with n; [|done].
      by rewrite (catboost_fit_small _ _ _ _ _ _ _ Hn (conj Hpos Hsmall) Hfit).
Qed.

Lemma catboost_reprobe_guard s X b q n :
  cls_time_per_iter (CatBoostEstimator_cls s) = Some q -> truthy q = true ->
  params (self s) !! "n_estimators" = Some (VInt n) -> 4 < n ->
  truthy b = true ->
  catboost_probes s X (Some b)
  = (4 <? Z.abs (cls_train_size (CatBoostEstimator_cls s) - Z.of_nat (rows X))).
Proof.
  intros Hq Ht Hn Hgt Htb. rewrite (catboost_probes_guard _ _ _ _ Hn).
  rewrite (catboost_fresh_cache _ _ _ Hq Ht), Htb.
  apply Z.ltb_lt in Hgt. rewrite Hgt. by rewrite !andb_true_r.
Qed.




(** ** The budget solver's count *)






(** ** The estimate cached after a flat measurement *)

Lemma monotone_duration (ck : nat -> Q) (k : nat) :
  monotone ck -> (0 <= ck (S k) - ck k)%Q.
Proof.
  intros H. unfold Qminus. rewrite <- Qle_minus_iff. apply H.
Qed.

(** In [LGBMEstimator.fit], when the second calibration fit is not slower
    than the first ([t2 <= t1]) the cached estimate is [t1] when [t1] is
    positive and 0.001 otherwise; on a clock that does not run backwards
    it is positive. *)
Lemma lgbm_flat_measurement_fallback X b s n r s' :
  params (self s) !! "n_estimators" = Some (VInt n) ->
  lgbm_probes s X (Some b) = true ->
  monotone (clock s) ->
  (reading s 2 - reading s 1 < b)%Q ->
  (reading s 4 - reading s 3 <= reading s 2 - reading s 1)%Q ->
  LGBMEstimator.fit X (Some b) s = (r, s') ->
  exists q,
    _time_per_iter (self s') = Some q
    /\ (0 < q)%Q
    /\ ((0 < reading s 2 - reading s 1)%Q -> q = (reading s 2 - reading s 1)%Q)
    /\ (~ (0 < reading s 2 - reading s 1)%Q -> q = (1 # 1000)%Q).
Proof.
  intros Hn Hg Hmono Hb Hflat Hfit.
  destruct (lgbm_probes_count _ _ _ Hg) as (b0 & n0 & [= <-] & Hn0 & Hgt & _).
  rewrite (lgbm_fit_probing _ _ _ _ Hn0 Hg) in Hfit.
  apply Qle_bool_false in Hb.
  change (reading s 2) with (reading (advance s) 1) in Hb.
  change (reading s 1) with (reading (advance s) 0) in Hb.
  destruct (lgbm_probe_caches X b (reading s 0) n0 (advance s) r s' Hgt Hb Hfit)
    as (H1 & _).
  eexists. split; [exact H1|].
  assert (H0 : (0 <= reading s 2 - reading s 1)%Q)
    by (apply (monotone_duration (clock s) (1 + ticks s) Hmono)).
  change (reading (advance s) 1) with (reading s 2).
  change (reading (advance s) 0) with (reading s 1).
  change (reading (advance s) 3) with (reading s 4).
  change (reading (advance s) 2) with (reading s 3).
  split; [apply lgbm_estimate_pos; [lia | done]|].
  unfold lgbm_estimate.
  assert (Hlt : Qltb (reading s 2 - reading s 1) (reading s 4 - reading s 3)
                = false).
  { destruct (Qltb _ _) eqn:E; [|done]. apply Qltb_lt in E.
    exfalso. by apply (Qlt_not_le _ _ E). }
  rewrite Hlt. split.
  - intros Hpos. by rewrite (truthy_pos _ Hpos).
  - intros Hnpos. destruct (truthy _) eqn:T; [|done].
    apply truthy_true in T. exfalso.
    apply Qle_lteq in H0 as [H0|H0]; [by apply Hnpos|]. apply T.
    by symmetry.
Qed.

(** On a clock too coarse to see the calibration fits, [LGBMEstimator.fit]
    caches the 0.001 fallback and completes. *)
Lemma lgbm_frozen_clock_estimate :
  exists t s',
    LGBMEstimator.fit X1000 (Some 1%Q)
      (start_state (unfitted (lgbm_params 100)) frozen_clock) = (Ok t, s')
    /\ _time_per_iter (self s') = Some (1 # 1000)%Q.
Proof.
  exists 0%Q,
    (LGBMEstimator.fit X1000 (Some 1%Q)
       (start_state (unfitted (lgbm_params 100)) frozen_clock)).2.
  split; vm_compute; reflexivity.
Qed.

(** C3, at the failing input. On the same clock [CatBoostEstimator.fit] has
    no 0.001 fallback: it caches [_time_per_iter = _t1 = 0], and the solver
    then divides by it. *)
Lemma catboost_caches_zero_estimate :
  exists s' q,
    CatBoostEstimator.fit tree_count_of X1000 (Some 1%Q)
      (start_state (unfitted (cat_params 8192)) frozen_clock)
    = (Raise ZeroDivisionError, s')
    /\ cls_time_per_iter (CatBoostEstimator_cls s') = Some q
    /\ (q == 0)%Q
    /\ cls_t1 (CatBoostEstimator_cls s') = Some q.
Proof.
  exists (CatBoostEstimator.fit tree_count_of X1000 (Some 1%Q)
            (start_state (unfitted (cat_params 8192)) frozen_clock)).2,
    0%Q.
  evaluate.
Qed.

(** ** Reuse of the cached estimate *)

(** C4, as stated, fails: [fit] overwrites [n_estimators] with the count it
    used. After a first call that probed and cached its estimate on 1000
    rows, a second call on the same rows with a budget of 5.5s trains a
    single iteration and leaves [n_estimators = 1]; a third call, on 2000
    rows, then does not probe although the row count is 1000 away from the
    cached size. *)
Lemma reprobe_needs_iteration_count :
  exists runs1 q t3 s3,
    LGBMEstimator.fit X1000 (Some 100%Q) lgbm_s0 = (Ok 80%Q, lgbm_s1)
    /\ added_runs lgbm_s0 lgbm_s1 runs1 /\ probed runs1
    /\ LGBMEstimator.fit X1000 (Some (11 # 2)%Q) lgbm_s1 = (Ok 1%Q, lgbm_s2)
    /\ _time_per_iter (self lgbm_s2) = Some q /\ truthy q = true
    /\ _train_size (self lgbm_s2) = 1000
    /\ params (self lgbm_s2) !! "n_estimators" = Some (VInt 1)
    /\ LGBMEstimator.fit X2000 (Some 100%Q) lgbm_s2 = (Ok t3, s3)
    /\ added_runs lgbm_s2 s3
         [(Final, Fitted (<["n_estimators" := VInt 1]>
                            (<["n_estimators" := VInt 83]>
                               (<["n_estimators" := VInt 4]>
                                  (<["n_estimators" := VInt 1]>
                                     (lgbm_params 100)))))
                    2000)]
    /\ ~ probed [(Final, Fitted (<["n_estimators" := VInt 1]>
                                   (<["n_estimators" := VInt 83]>
                                      (<["n_estimators" := VInt 4]>
                                         (<["n_estimators" := VInt 1]>
                                            (lgbm_params 100)))))
                           2000)].
Proof.
  exists (runs_between lgbm_s0 lgbm_s1), (3 # 3)%Q, 1%Q,
    (LGBMEstimator.fit X2000 (Some 100%Q) lgbm_s2).2.
  split; [vm_compute; reflexivity|].
  split; [vm_compute; reflexivity|].
  split; [vm_compute; by eexists _, _|].
  conjuncts ltac:(vm_compute; reflexivity).
  intros (m & rest & H). discriminate.
Qed.

(** The same with [CatBoostEstimator.fit]: a first call that runs out of
    budget after its calibration fits leaves [n_estimators = 4], and the
    next call, on 2000 rows instead of 1000, does not probe. *)
Lemma catboost_reprobe_needs_iteration_count :
  exists t1 s1 q t2 s2 m,
    CatBoostEstimator.fit tree_count_of X1000 (Some 1%Q) catboost_s0
      = (Ok t1, s1)
    /\ cls_time_per_iter (CatBoostEstimator_cls s1) = Some q
    /\ truthy q = true
    /\ cls_train_size (CatBoostEstimator_cls s1) = 1000
    /\ params (self s1) !! "n_estimators" = Some (VInt 4)
    /\ CatBoostEstimator.fit tree_count_of X2000 (Some 10%Q) s1 = (Ok t2, s2)
    /\ added_runs s1 s2 [(Final, m)].
Proof.
  exists (12 # 10)%Q,
    (CatBoostEstimator.fit tree_count_of X1000 (Some 1%Q) catboost_s0).2,
    (90 # 300)%Q, 1%Q,
    (CatBoostEstimator.fit tree_count_of X2000 (Some 10%Q)
       (CatBoostEstimator.fit tree_count_of X1000 (Some 1%Q) catboost_s0).2).2,
    (Fitted (<["n_estimators" := VInt 4]>
               (<["n_estimators" := VInt 1]> (cat_params 8192))) 1800).
  evaluate.
Qed.

(** C4, amended. (1) After a budgeted call with a positive requested count
    ([CatBoostEstimator]: and a non-zero budget), a call on a training set
    of the same row count does not probe. (2) With an estimate in the cache,
    a budgeted call probes when the row count is more than 4 away from the
    cached size and does not when it is within 4, provided the iteration
    count then stored in [params] exceeds 1 ([CatBoostEstimator]: exceeds 4,
    with a non-zero budget). *)
Theorem cache_reuse (tree_count_ : trained -> Z) :
  (forall X X' b budget' s n r s1 r' s2 runs,
      params (self s) !! "n_estimators" = Some (VInt n) -> 1 <= n ->
      LGBMEstimator.fit X (Some b) s = (r, s1) ->
      rows X' = rows X ->
      LGBMEstimator.fit X' budget' s1 = (r', s2) ->
      added_runs s1 s2 runs ->
      not_probed runs)
  /\ (forall X b s q n r s' runs,
        _time_per_iter (self s) = Some q -> truthy q = true ->
        params (self s) !! "n_estimators" = Some (VInt n) -> 1 < n ->
        LGBMEstimator.fit X (Some b) s = (r, s') ->
        added_runs s s' runs ->
        (4 < Z.abs (_train_size (self s) - Z.of_nat (rows X)) -> probed runs)
        /\ (Z.abs (_train_size (self s) - Z.of_nat (rows X)) <= 4 ->
            not_probed runs))
  /\ (forall X X' b budget' s n r s1 r' s2 runs,
        params (self s) !! "n_estimators" = Some (VInt n) -> 1 <= n ->
        truthy b = true ->
        CatBoostEstimator.fit tree_count_ X (Some b) s = (r, s1) ->
        rows X' = rows X ->
        CatBoostEstimator.fit tree_count_ X' budget' s1 = (r', s2) ->
        added_runs s1 s2 runs ->
        not_probed runs)
  /\ (forall X b s q n r s' runs,
        cls_time_per_iter (CatBoostEstimator_cls s) = Some q ->
        truthy q = true ->
        params (self s) !! "n_estimators" = Some (VInt n) -> 4 < n ->
        truthy b = true ->
        CatBoostEstimator.fit tree_count_ X (Some b) s = (r, s') ->
        added_runs s s' runs ->
        (4 < Z.abs (cls_train_size (CatBoostEstimator_cls s)
                    - Z.of_nat (rows X)) -> probed runs)
        /\ (Z.abs (cls_train_size (CatBoostEstimator_cls s)
                   - Z.of_nat (rows X)) <= 4 -> not_probed runs)).
Proof.
  split; [|split; [|split]].
  - intros X X' b budget' s n r s1 r' s2 runs Hn Hpos Hfit Hrows Hfit' Hruns.
    pose proof (lgbm_second_call_guard _ _ _ _ _ _ X' budget' Hn Hpos Hfit Hrows)
      as Hg.
    destruct (lgbm_probed_iff_guard _ _ _ _ _ Hfit') as (runs' & H1 & H2).
    rewrite Hg in H2. by rewrite (added_runs_unique _ _ _ _ Hruns H1).
  - intros X b s q n r s' runs Hq Ht Hn Hgt Hfit Hruns.
    destruct (lgbm_probed_iff_guard _ _ _ _ _ Hfit) as (runs' & H1 & H2).
    rewrite (added_runs_unique _ _ _ _ Hruns H1).
    rewrite (lgbm_reprobe_guard _ _ _ _ _ Hq Ht Hn Hgt) in H2.
    split; intros Hd.
    + apply Z.ltb_lt in Hd. by rewrite Hd in H2.
    + apply Z.ltb_ge in Hd. by rewrite Hd in H2.
  - intros X X' b budget' s n r s1 r' s2 runs Hn Hpos Htb Hfit Hrows Hfit' Hruns.
    pose proof (catboost_second_call_guard _ _ _ _ _ _ _ X' budget'
                  Hn Hpos Htb Hfit Hrows) as Hg.
    destruct (catboost_probed_iff_guard _ _ _ _ _ _ Hfit') as (runs' & H1 & H2).
    rewrite Hg in H2. by rewrite (added_runs_unique _ _ _ _ Hruns H1).
  - intros X b s q n r s' runs Hq Ht Hn Hgt Htb Hfit Hruns.
    destruct (catboost_probed_iff_guard _ _ _ _ _ _ Hfit) as (runs' & H1 & H2).
    rewrite (added_runs_unique _ _ _ _ Hruns H1).
    rewrite (catboost_reprobe_guard _ _ _ _ _ Hq Ht Hn Hgt Htb) in H2.
    split; intros Hd.
    + apply Z.ltb_lt in Hd. by rewrite Hd in H2.
    + apply Z.ltb_ge in Hd. by rewrite Hd in H2.
Qed.

Lemma cache_reuse_witness :
  not_probed
    (runs_between lgbm_s1 (LGBMEstimator.fit X1000 (Some 1%Q) lgbm_s1).2)
  /\ probed
       (runs_between lgbm_s1 (LGBMEstimator.fit X2000 (Some 100%Q) lgbm_s1).2)
  /\ not_probed
       (runs_between catboost_s1
          (CatBoostEstimator.fit tree_count_of X1000 (Some 20%Q) catboost_s1).2)
  /\ probed
       (runs_between catboost_s1
          (CatBoostEstimator.fit tree_count_of X2000 (Some 20%Q) catboost_s1).2).
Proof.
  destruct (cache_reuse tree_count_of) as (L1 & L2 & C1 & C2).
  split; [|split; [|split]].
  - apply (L1 X1000 X1000 100%Q (Some 1%Q) lgbm_s0 100 (Ok 80%Q) lgbm_s1
              (LGBMEstimator.fit X1000 (Some 1%Q) lgbm_s1).1
              (LGBMEstimator.fit X1000 (Some 1%Q) lgbm_s1).2).
    + reflexivity.
    + lia.
    + vm_compute. reflexivity.
    + reflexivity.
    + vm_compute. reflexivity.
    + vm_compute. reflexivity.
  - apply (L2 X2000 100%Q lgbm_s1 (3 # 3)%Q 83
              (LGBMEstimator.fit X2000 (Some 100%Q) lgbm_s1).1
              (LGBMEstimator.fit X2000 (Some 100%Q) lgbm_s1).2).
    + vm_compute. reflexivity.
    + reflexivity.
    + vm_compute. reflexivity.
    + lia.
    + vm_compute. reflexivity.
    + vm_compute. reflexivity.
    + vm_compute. reflexivity.
  - apply (C1 X1000 X1000 100%Q (Some 20%Q) catboost_s0 8192
              (CatBoostEstimator.fit tree_count_of X1000 (Some 100%Q) catboost_s0).1
              catboost_s1
              (CatBoostEstimator.fit tree_count_of X1000 (Some 20%Q) catboost_s1).1
              (CatBoostEstimator.fit tree_count_of X1000 (Some 20%Q) catboost_s1).2).
    + reflexivity.
    + lia.
    + reflexivity.
    + vm_compute. reflexivity.
    + reflexivity.
    + vm_compute. reflexivity.
    + vm_compute. reflexivity.
  - apply (C2 X2000 20%Q catboost_s1 (90 # 300)%Q 329
              (CatBoostEstimator.fit tree_count_of X2000 (Some 20%Q) catboost_s1).1
              (CatBoostEstimator.fit tree_count_of X2000 (Some 20%Q) catboost_s1).2).
    + vm_compute. reflexivity.
    + reflexivity.
    + vm_compute. reflexivity.
    + lia.
    + reflexivity.
    + vm_compute. reflexivity.
    + vm_compute. reflexivity.
    + vm_compute. reflexivity.
Defined.
(** * Further properties *)

(** ** [LGBMEstimator.fit]: what every call leaves behind *)

Lemma model_count_insert (p : gmap string value) (v : value) (rows : nat) :
  model_n_estimators (Fitted (<["n_estimators" := v]> p) rows) = v.
Proof. unfold model_n_estimators, dict_get. by map_lookup. Qed.

Lemma model_count_lookup (p : gmap string value) (v : value) (rows : nat) :
  p !! "n_estimators" = Some v ->
  model_n_estimators (Fitted p rows) = v.
Proof. intros H. unfold model_n_estimators, dict_get. by rewrite H. Qed.

Ltac count_matches :=
  sim; eexists; (split; [reflexivity|]); map_lookup;
  rewrite ?model_count_insert; try done;
  try (erewrite model_count_lookup by eassumption; done).

Lemma lgbm_finish_count X st s t s' :
  LGBMEstimator.finish X st s = (Ok t, s') -> count_matches_model s'.
Proof.
  destruct s as [[p m tpi ts t1 t2] c ck tk tr].
  unfold LGBMEstimator.finish, count_matches_model. unf_prim. sim. intros H.
  crunch; count_matches.
Qed.

Lemma lgbm_solve_count X budget st n trained s t s' :
  (trained = true -> count_matches_model s) ->
  LGBMEstimator.solve X budget st n trained s = (Ok t, s') ->
  count_matches_model s'.
Proof.
  intros Hinv. unfold LGBMEstimator.solve.
  destruct budget as [b|]; [destruct (1 <? n) eqn:Hn|];
    try apply lgbm_finish_count.
  destruct s as [[p m tpi ts t1 t2] c ck tk tr]. unf_prim. sim. intros H.
  crunch; try (eapply lgbm_finish_count; eassumption).
  destruct Hinv as (m0 & Hm0 & Hp0); [done|]. sim. by exists m0.
Qed.

Lemma lgbm_probe_count X b st n s t s' :
  LGBMEstimator.probe X b st n s = (Ok t, s') -> count_matches_model s'.
Proof.
  destruct s as [[p m tpi ts t1 t2] c ck tk tr].
  unfold LGBMEstimator.probe. unf_prim. sim. intros H.
  crunch; try (unfold count_matches_model; count_matches).
  all: eapply lgbm_solve_count; [|eassumption];
    intros _; unfold count_matches_model; count_matches.
Qed.

(** X1. Whenever [LGBMEstimator.fit] returns, on any path, a model is
    stored and [params["n_estimators"]] is the iteration count that model
    was built with. *)
Theorem lgbm_fit_count_matches_model (X : dataset) (budget : option Q)
    (s : state) (t : Q) (s' : state) :
  LGBMEstimator.fit X budget s = (Ok t, s') ->
  exists m, _model (self s') = Some m
    /\ params (self s') !! "n_estimators" = Some (model_n_estimators m).
Proof.
  destruct s as [[p m tpi ts t1 t2] c ck tk tr].
  unfold LGBMEstimator.fit. unf_prim. sim. intros H.
  crunch;
    first [ eapply lgbm_probe_count; eassumption
          | eapply lgbm_solve_count; [|eassumption]; discriminate ].
Qed.

Lemma lgbm_fit_count_matches_model_witness :
  exists m, _model (self lgbm_s1) = Some m
    /\ params (self lgbm_s1) !! "n_estimators" = Some (model_n_estimators m).
Proof.
  apply (lgbm_fit_count_matches_model X1000 (Some 100%Q) lgbm_s0 80%Q lgbm_s1).
  vm_compute. reflexivity.
Defined.

(** ** [LGBMEstimator.fit]: the shape of a call *)

Ltac one_or_none :=
  first [ left; by rewrite app_nil_r
        | right; eexists; reflexivity ].

Lemma lgbm_finish_runs X st s r s' :
  LGBMEstimator.finish X st s = (r, s') ->
  trace s' = trace s \/ exists m, trace s' = (trace s ++ [(Final, m)])%list.
Proof.
  destruct s as [[p m tpi ts t1 t2] c ck tk tr].
  unfold LGBMEstimator.finish. unf_prim. sim. intros H.
  crunch; sim; first [ by left | right; eexists; reflexivity ].
Qed.

Lemma lgbm_solve_runs X budget st n trained s r s' :
  LGBMEstimator.solve X budget st n trained s = (r, s') ->
  trace s' = trace s \/ exists m, trace s' = (trace s ++ [(Final, m)])%list.
Proof.
  unfold LGBMEstimator.solve.
  destruct budget as [b|]; [destruct (1 <? n) eqn:Hn|];
    try apply lgbm_finish_runs.
  destruct s as [[p m tpi ts t1 t2] c ck tk tr]. unf_prim. sim. intros H.
  crunch; sim;
    try match goal with
        | H : LGBMEstimator.finish _ _ _ = _ |- _ =>
            apply lgbm_finish_runs in H; sim; exact H
        end;
    by left.
Qed.

(** X2. Whatever its outcome, a call of [LGBMEstimator.fit] makes at most
    three training runs, in this order: the first calibration fit, the
    second calibration fit, the definitive fit; the second calibration fit
    never comes without the first, and a call that probes makes no
    definitive fit without both. *)
Theorem lgbm_fit_runs (X : dataset) (budget : option Q) (s : state)
    (r : result Q) (s' : state) :
  LGBMEstimator.fit X budget s = (r, s') ->
  exists runs, added_runs s s' runs
    /\ (sites runs = [] \/ sites runs = [Final] \/ sites runs = [Probe1]
        \/ sites runs = [Probe1; Probe2]
        \/ sites runs = [Probe1; Probe2; Final]).
Proof.
  destruct s as [[p m tpi ts t1 t2] c ck tk tr].
  unfold LGBMEstimator.fit, LGBMEstimator.probe. unf_prim. sim. intros H.
  crunch;
    try match goal with
        | H : LGBMEstimator.solve _ _ _ _ _ _ = _ |- _ =>
            apply lgbm_solve_runs in H; sim; destruct H as [H | [m' H]];
            rewrite H
        end;
    rewrite <- ?app_assoc; sim;
    first [ exists []; split; [by rewrite app_nil_r | by left]
          | eexists; split; [reflexivity|]; sim; tauto ].
Qed.

Lemma lgbm_fit_runs_witness :
  exists runs, added_runs lgbm_s0 lgbm_s1 runs
    /\ (sites runs = [] \/ sites runs = [Final] \/ sites runs = [Probe1]
        \/ sites runs = [Probe1; Probe2]
        \/ sites runs = [Probe1; Probe2; Final]).
Proof.
  apply (lgbm_fit_runs X1000 (Some 100%Q) lgbm_s0 (Ok 80%Q) lgbm_s1).
  vm_compute. reflexivity.
Defined.

(** ** [LGBMEstimator.fit]: a call that probes always returns *)





(** X4. With a budget, a stale cache and a requested count [n] of 2, 3 or
    4, a call whose first calibration fit stays within the budget stops
    after the second calibration fit, which runs all [n] iterations: two
    training runs, and the stored model is the full one. *)
Theorem lgbm_small_count_two_runs (X : dataset) (b : Q) (s : state) (n : Z) :
  params (self s) !! "n_estimators" = Some (VInt n) ->
  1 < n <= 4 ->
  LGBMEstimator.stale_cache (self s) X = true ->
  (reading s 2 - reading s 1 < b)%Q ->
  exists s',
    LGBMEstimator.fit X (Some b) s = (Ok (reading s 5 - reading s 0)%Q, s')
    /\ added_runs s s'
         [(Probe1, Fitted (<["n_estimators" := VInt 1]> (params (self s)))
                     (rows X));
          (Probe2, Fitted (<["n_estimators" := VInt n]>
                             (<["n_estimators" := VInt 1]> (params (self s))))
                     (rows X))]
    /\ _model (self s')
       = Some (Fitted (<["n_estimators" := VInt n]>
                         (<["n_estimators" := VInt 1]> (params (self s))))
                 (rows X))
    /\ params (self s') !! "n_estimators" = Some (VInt n).
Proof.
  intros Hn [Hgt Hle] Hst Hb. apply Qle_bool_false in Hb.
  assert (Hg : lgbm_probes s X (Some b) = true).
  { rewrite (lgbm_probes_guard _ _ _ _ Hn), Hst. by apply Z.ltb_lt. }
  rewrite (lgbm_fit_probing _ _ _ _ Hn Hg).
  destruct s as [[p m tpi ts t1 t2] c ck tk tr].
  unfold LGBMEstimator.probe. unf_prim. sim. rewrite Hb.
  assert (Hn1 : (n =? 1) = false) by (apply Z.eqb_neq; lia).
  assert (Hmin : Z.min n 4 = n) by lia.
  rewrite Hn1, Hmin. sim. map_lookup. sim.
  assert (Hq : forall a, qdiv a (inject_Z (n - 1)) = Ok (a / inject_Z (n - 1))%Q).
  { intros a. apply qdiv_ok, truthy_inject_Z. lia. }
  destruct (Qltb _ _); [rewrite Hq | destruct (truthy _)]; sim; map_lookup;
    sim; rewrite Z.eqb_refl, orb_true_r; sim;
    (eexists; split; [reflexivity|]; sim;
     split; [by rewrite <- app_assoc|]; split; [done | by map_lookup]).
Qed.

Lemma lgbm_small_count_two_runs_witness :
  exists s',
    LGBMEstimator.fit X1000 (Some 100%Q) lgbm_small_s0
    = (Ok (reading lgbm_small_s0 5 - reading lgbm_small_s0 0)%Q, s')
    /\ added_runs lgbm_small_s0 s'
         [(Probe1, Fitted (<["n_estimators" := VInt 1]>
                             (params (self lgbm_small_s0)))
                     (rows X1000));
          (Probe2, Fitted (<["n_estimators" := VInt 3]>
                             (<["n_estimators" := VInt 1]>
                                (params (self lgbm_small_s0))))
                     (rows X1000))]
    /\ _model (self s')
       = Some (Fitted (<["n_estimators" := VInt 3]>
                         (<["n_estimators" := VInt 1]>
                            (params (self lgbm_small_s0))))
                 (rows X1000))
    /\ params (self s') !! "n_estimators" = Some (VInt 3).
Proof.
  apply (lgbm_small_count_two_runs X1000 100%Q lgbm_small_s0 3).
  - vm_compute. reflexivity.
  - lia.
  - vm_compute. reflexivity.
  - vm_compute. reflexivity.
Defined.

(** X5. A budget of zero (or less) still costs [LGBMEstimator.fit] one
    training run: on a clock that does not run backwards, a call that
    meets the probing guard trains the 1-iteration calibration model,
    stores it and returns, leaving [n_estimators = 1]. *)
Theorem lgbm_zero_budget (X : dataset) (b : Q) (s : state) (n : Z) :
  params (self s) !! "n_estimators" = Some (VInt n) ->
  1 < n ->
  LGBMEstimator.stale_cache (self s) X = true ->
  monotone (clock s) ->
  (b <= 0)%Q ->
  exists s',
    LGBMEstimator.fit X (Some b) s = (Ok (reading s 2 - reading s 1)%Q, s')
    /\ added_runs s s'
         [(Probe1, Fitted (<["n_estimators" := VInt 1]> (params (self s)))
                     (rows X))]
    /\ params (self s') = <["n_estimators" := VInt 1]> (params (self s)).
Proof.
  intros Hn Hgt Hst Hmono Hb.
  assert (Hg : lgbm_probes s X (Some b) = true).
  { rewrite (lgbm_probes_guard _ _ _ _ Hn), Hst. by apply Z.ltb_lt. }
  rewrite (lgbm_fit_probing _ _ _ _ Hn Hg).
  assert (Hle : Qle_bool b (reading (advance s) 1 - reading (advance s) 0)
                = true).
  { apply Qle_bool_iff. apply Qle_trans with 0%Q; [done|].
    apply (monotone_duration (clock s) (1 + ticks s) Hmono). }
  destruct (lgbm_probe_early X b (reading s 0) n _ Hle)
    as (s1 & H1 & H2 & H3 & _).
  exists s1. split; [exact H1|]. split; [exact H2 | exact H3].
Qed.

Lemma frozen_clock_monotone : monotone frozen_clock.
Proof. intros [|[|i]]; cbn; apply Qle_refl. Qed.

Lemma lgbm_zero_budget_witness :
  exists s',
    LGBMEstimator.fit X1000 (Some 0%Q) lgbm_frozen_s0
    = (Ok (reading lgbm_frozen_s0 2 - reading lgbm_frozen_s0 1)%Q, s')
    /\ added_runs lgbm_frozen_s0 s'
         [(Probe1, Fitted (<["n_estimators" := VInt 1]>
                             (params (self lgbm_frozen_s0)))
                     (rows X1000))]
    /\ params (self s')
       = <["n_estimators" := VInt 1]> (params (self lgbm_frozen_s0)).
Proof.
  apply (lgbm_zero_budget X1000 0%Q lgbm_frozen_s0 100).
  - vm_compute. reflexivity.
  - lia.
  - vm_compute. reflexivity.
  - exact frozen_clock_monotone.
  - vm_compute. discriminate.
Defined.

(** X6. For [CatBoostEstimator.fit] a budget of zero is no budget: the call
    behaves exactly as with [budget = None]. *)
Theorem catboost_zero_budget_is_none (tree_count_ : trained -> Z)
    (X : dataset) (b : Q) (s : state) :
  (b == 0)%Q ->
  CatBoostEstimator.fit tree_count_ X (Some b) s
  = CatBoostEstimator.fit tree_count_ X None s.
Proof.
  intros Hb. apply truthy_false in Hb.
  unfold CatBoostEstimator.fit, CatBoostEstimator.solve. rewrite Hb.
  unfold bind. destruct (time_time s) as [[t|e] s1]; [|done].
  destruct (n_estimators_param s1) as [[n|e] s2]; [|done].
  destruct (get_cls s2) as [[c|e] s3]; [|done].
  by rewrite andb_false_r.
Qed.

Lemma catboost_zero_budget_is_none_witness :
  CatBoostEstimator.fit tree_count_of X1000 (Some 0%Q) catboost_s0
  = CatBoostEstimator.fit tree_count_of X1000 None catboost_s0.
Proof.
  apply (catboost_zero_budget_is_none tree_count_of X1000 0%Q catboost_s0).
  vm_compute. reflexivity.
Defined.

(** ** The scope of the calibration cache *)

(** X7. The estimate cached by [CatBoostEstimator.fit] is class-wide: once
    the class attributes hold a non-zero estimate for a training-set size
    within 4 rows, no instance probes, whatever its own parameters, model
    or budget. *)
Theorem catboost_cache_is_class_wide (tree_count_ : trained -> Z)
    (X : dataset) (budget : option Q) (s : state) (q : Q) (i : instance)
    (r : result Q) (s' : state) (runs : list (site * trained)) :
  cls_time_per_iter (CatBoostEstimator_cls s) = Some q ->
  truthy q = true ->
  Z.abs (cls_train_size (CatBoostEstimator_cls s) - Z.of_nat (rows X)) <= 4 ->
  CatBoostEstimator.fit tree_count_ X budget (with_instance i s) = (r, s') ->
  added_runs (with_instance i s) s' runs ->
  not_probed runs.
Proof.
  intros Hq Htr Hsize Hfit Hruns.
  destruct (catboost_probed_iff_guard _ _ _ _ _ _ Hfit) as (runs' & H1 & H2).
  rewrite (added_runs_unique _ _ _ _ Hruns H1).
  rewrite catboost_probes_fresh in H2; [done|].
  change (CatBoostEstimator_cls (with_instance i s))
    with (CatBoostEstimator_cls s).
  rewrite (catboost_fresh_cache _ _ _ Hq Htr). by apply Z.ltb_ge.
Qed.

Lemma catboost_cache_is_class_wide_witness :
  not_probed
    (runs_between (with_instance other_catboost catboost_s1)
       (CatBoostEstimator.fit tree_count_of X1000 (Some 20%Q)
          (with_instance other_catboost catboost_s1)).2).
Proof.
  apply (catboost_cache_is_class_wide tree_count_of X1000 (Some 20%Q)
           catboost_s1 (90 # 300) other_catboost
           (CatBoostEstimator.fit tree_count_of X1000 (Some 20%Q)
              (with_instance other_catboost catboost_s1)).1
           (CatBoostEstimator.fit tree_count_of X1000 (Some 20%Q)
              (with_instance other_catboost catboost_s1)).2).
  - vm_compute. reflexivity.
  - vm_compute. reflexivity.
  - vm_compute. discriminate.
  - vm_compute. reflexivity.
  - vm_compute. reflexivity.
Defined.

(** X8. [CatBoostEstimator.init] empties the class-wide cache: the next
    call with a non-zero budget and more than 4 requested iterations
    probes, whatever was cached before. *)
Theorem catboost_init_forces_probe (tree_count_ : trained -> Z)
    (X : dataset) (b : Q) (s : state) (n : Z)
    (r : result Q) (s' : state) (runs : list (site * trained)) :
  params (self s) !! "n_estimators" = Some (VInt n) ->
  4 < n ->
  truthy b = true ->
  CatBoostEstimator.fit tree_count_ X (Some b) (catboost_init s) = (r, s') ->
  added_runs (catboost_init s) s' runs ->
  probed runs.
Proof.
  intros Hn Hgt Hb Hfit Hruns.
  destruct (catboost_probed_iff_guard _ _ _ _ _ _ Hfit) as (runs' & H1 & H2).
  rewrite (added_runs_unique _ _ _ _ Hruns H1).
  assert (Hg : catboost_probes (catboost_init s) X (Some b) = true).
  { rewrite (catboost_probes_guard (catboost_init s) X b n Hn).
    rewrite Hb. apply Z.ltb_lt in Hgt. by rewrite Hgt. }
  by rewrite Hg in H2.
Qed.

Lemma catboost_init_forces_probe_witness :
  probed
    (runs_between (catboost_init catboost_s1)
       (CatBoostEstimator.fit tree_count_of X1000 (Some 20%Q)
          (catboost_init catboost_s1)).2).
Proof.
  apply (catboost_init_forces_probe tree_count_of X1000 20%Q catboost_s1 329
           (CatBoostEstimator.fit tree_count_of X1000 (Some 20%Q)
              (catboost_init catboost_s1)).1
           (CatBoostEstimator.fit tree_count_of X1000 (Some 20%Q)
              (catboost_init catboost_s1)).2).
  - vm_compute. reflexivity.
  - lia.
  - vm_compute. reflexivity.
  - vm_compute. reflexivity.
  - vm_compute. reflexivity.
Defined.

(** X9. The cache of [LGBMEstimator] belongs to the instance: a freshly
    constructed estimator probes on its first budgeted call with more than
    one requested iteration, whatever other instances have measured. Its
    first training run is the 1-iteration calibration fit. *)
Theorem lgbm_fresh_instance_probes (config : gmap string value)
    (i : instance) (X : dataset) (b : Q) (s : state) (n : Z)
    (r : result Q) (s' : state) (runs : list (site * trained)) :
  LGBMEstimator.__init__ config = Ok i ->
  params i !! "n_estimators" = Some (VInt n) ->
  1 < n ->
  LGBMEstimator.fit X (Some b) (with_instance i s) = (r, s') ->
  added_runs (with_instance i s) s' runs ->
  exists rest,
    runs = (Probe1, Fitted (<["n_estimators" := VInt 1]> (params i)) (rows X))
           :: rest.
Proof.
  intros Hinit Hn Hgt Hfit Hruns.
  assert (Htpi : _time_per_iter i = None).
  { unfold LGBMEstimator.__init__ in Hinit.
    destruct (BaseEstimator.__init__ _ _) as [i0|]; [|done].
    cbn in Hinit. by injection Hinit as <-. }
  assert (Hst : LGBMEstimator.stale_cache i X = true).
  { unfold LGBMEstimator.stale_cache. by rewrite Htpi. }
  assert (Hg : lgbm_probes (with_instance i s) X (Some b) = true).
  { rewrite (lgbm_probes_guard (with_instance i s) X b n Hn).
    cbn [with_instance self]. rewrite Hst. by apply Z.ltb_lt. }
  rewrite (lgbm_fit_probing X b (with_instance i s) n Hn Hg) in Hfit.
  destruct (Qle_bool b (reading (advance (with_instance i s)) 1
                        - reading (advance (with_instance i s)) 0)) eqn:Hb.
  - destruct (lgbm_probe_early X b (reading (with_instance i s) 0) n _ Hb)
      as (s1 & H1 & H2 & _).
    rewrite H1 in Hfit. injection Hfit as <- <-.
    exists []. by apply (added_runs_unique _ _ _ _ Hruns).
  - destruct (lgbm_probe_caches _ _ _ _ _ _ _ Hgt Hb Hfit)
      as (_ & _ & _ & rest & H1 & _).
    eexists. by apply (added_runs_unique _ _ _ _ Hruns).
Qed.

Lemma lgbm_fresh_instance_probes_witness :
  exists rest,
    runs_between (with_instance other_lgbm lgbm_s1)
      (LGBMEstimator.fit X1000 (Some 1%Q) (with_instance other_lgbm lgbm_s1)).2
    = (Probe1, Fitted (<["n_estimators" := VInt 1]> (params other_lgbm))
                 (rows X1000))
      :: rest.
Proof.
  apply (lgbm_fresh_instance_probes (lgbm_params 100) other_lgbm X1000 1%Q
           lgbm_s1 100
           (LGBMEstimator.fit X1000 (Some 1%Q)
              (with_instance other_lgbm lgbm_s1)).1
           (LGBMEstimator.fit X1000 (Some 1%Q)
              (with_instance other_lgbm lgbm_s1)).2).
  - vm_compute. reflexivity.
  - vm_compute. reflexivity.
  - lia.
  - vm_compute. reflexivity.
  - vm_compute. reflexivity.
Defined.

(** ** [CatBoostEstimator.fit]: probing with a measurable first fit *)





(** ** [XGBoostEstimator.fit]: what the library is given, what stays *)

Ltac xgb_cases p X_train :=
  destruct (issparse X_train) eqn:Hsp; sim;
  destruct (XGBoostEstimator.is_str _) eqn:Hs; sim; map_lookup;
  try (destruct (p !! "objective") as [o'|] eqn:Ho; sim; map_lookup).

Lemma is_str_true (v : value) :
  XGBoostEstimator.is_str v = true -> exists o, v = VStr o.
Proof. destruct v; try done. eauto. Qed.

(** X11. The parameters [XGBoostEstimator.fit] hands to [xgb.train] never
    contain [n_estimators] (it is the number of rounds). A string
    [objective] stays among them and no custom objective is passed; any
    other [objective] (also an absent one, read as [None]) is taken out of
    them and passed as [obj]. Every other key but [tree_method] is handed
    over as it is, and [tree_method] is forced to ["auto"] on sparse
    data. *)
Theorem xgboost_fit_training_params (X_train : dataset) (budget : option Q)
    (s : state) (n : value) :
  params (self s) !! "n_estimators" = Some n ->
  exists t s' p obj,
    XGBoostEstimator.fit X_train budget s = (Ok t, s')
    /\ added_runs s s' [(Final, Booster p n obj (rows X_train))]
    /\ p !! "n_estimators" = None
    /\ (forall o, params (self s) !! "objective" = Some (VStr o) ->
          p !! "objective" = Some (VStr o) /\ obj = VNone)
    /\ ((forall o, params (self s) !! "objective" <> Some (VStr o)) ->
          p !! "objective" = None
          /\ obj = dict_get "objective" VNone (params (self s)))
    /\ p !! "tree_method"
       = (if issparse X_train then Some (VStr "auto")
          else params (self s) !! "tree_method")
    /\ (forall k, k <> "n_estimators" -> k <> "objective" ->
          k <> "tree_method" -> p !! k = params (self s) !! k).
Proof.
  intros Hn. destruct s as [[p m tpi ts t1 t2] c ck tk tr]. sim.
  unfold XGBoostEstimator.fit. unf_prim. sim.
  xgb_cases p X_train; rewrite Hn; sim;
    (eexists _, _, _, _; split; [reflexivity|]; sim;
     split; [reflexivity|]; split; [by map_lookup|]).
  all: unfold dict_get in *; revert Hs; map_lookup; rewrite ?Ho; sim;
    intros Hs.
  all: try (apply is_str_true in Hs as [o1 ->]).
  all: try discriminate.
  all: split; [intros o Hv; simplify_eq; try done|].
  all: split; [intros Hno; first [ done | by destruct (Hno o1) ]|].
  all: split; [done|].
  all: intros k H1 H2 H3; by rewrite ?lookup_delete_ne, ?lookup_insert_ne
         by congruence.
Qed.

Lemma xgboost_fit_training_params_witness :
  exists t s' p obj,
    XGBoostEstimator.fit X1000 None xgb_s0 = (Ok t, s')
    /\ added_runs xgb_s0 s' [(Final, Booster p (VInt 50) obj (rows X1000))]
    /\ p !! "n_estimators" = None
    /\ (forall o, params (self xgb_s0) !! "objective" = Some (VStr o) ->
          p !! "objective" = Some (VStr o) /\ obj = VNone)
    /\ ((forall o, params (self xgb_s0) !! "objective" <> Some (VStr o)) ->
          p !! "objective" = None
          /\ obj = dict_get "objective" VNone (params (self xgb_s0)))
    /\ p !! "tree_method"
       = (if issparse X1000 then Some (VStr "auto")
          else params (self xgb_s0) !! "tree_method")
    /\ (forall k, k <> "n_estimators" -> k <> "objective" ->
          k <> "tree_method" -> p !! k = params (self xgb_s0) !! k).
Proof.
  apply (xgboost_fit_training_params X1000 None xgb_s0 (VInt 50)).
  vm_compute. reflexivity.
Defined.

(** X12. Without [n_estimators] in [params], [XGBoostEstimator.fit] raises
    [KeyError] before training: no run is made and the stored model is
    untouched. An [objective] that is not a string has already been
    deleted from [params] by then, and is not put back. *)
Theorem xgboost_fit_missing_count (X_train : dataset) (budget : option Q)
    (s : state) :
  params (self s) !! "n_estimators" = None ->
  exists s',
    XGBoostEstimator.fit X_train budget s
      = (Raise (KeyError "n_estimators"), s')
    /\ trace s' = trace s
    /\ _model (self s') = _model (self s)
    /\ ((forall o, params (self s) !! "objective" <> Some (VStr o)) ->
        params (self s') !! "objective" = None).
Proof.
  intros Hn. destruct s as [[p m tpi ts t1 t2] c ck tk tr]. sim.
  unfold XGBoostEstimator.fit. unf_prim. sim.
  xgb_cases p X_train; rewrite Hn; sim;
    (eexists; split; [reflexivity|]; sim; split; [done|]; split; [done|]).
  all: unfold dict_get in *; revert Hs; map_lookup; rewrite ?Ho; sim;
    intros Hs.
  all: try (apply is_str_true in Hs as [o1 ->]).
  all: try discriminate.
  all: intros Hno; map_lookup; rewrite ?Ho; first [ done | by destruct (Hno o1) ].
Qed.

Lemma xgboost_fit_missing_count_witness :
  exists s',
    XGBoostEstimator.fit X1000 None xgb_empty_s0
      = (Raise (KeyError "n_estimators"), s')
    /\ trace s' = trace xgb_empty_s0
    /\ _model (self s') = _model (self xgb_empty_s0)
    /\ ((forall o, params (self xgb_empty_s0) !! "objective" <> Some (VStr o)) ->
        params (self s') !! "objective" = None).
Proof.
  apply (xgboost_fit_missing_count X1000 None xgb_empty_s0).
  vm_compute. reflexivity.
Defined.

(** X13. A successful [XGBoostEstimator.fit] leaves [params] as they were,
    up to two things: the key [objective] is present afterwards (with the
    value [params.get("objective")] had before), and on sparse data
    [tree_method] is left at ["auto"]. *)
Theorem xgboost_fit_params_frame (X_train : dataset) (budget : option Q)
    (s : state) (t : Q) (s' : state) :
  XGBoostEstimator.fit X_train budget s = (Ok t, s') ->
  params (self s') !! "objective"
  = Some (dict_get "objective" VNone (params (self s)))
  /\ params (self s') !! "tree_method"
     = (if issparse X_train then Some (VStr "auto")
        else params (self s) !! "tree_method")
  /\ (forall k, k <> "objective" -> k <> "tree_method" ->
        params (self s') !! k = params (self s) !! k).
Proof.
  destruct s as [[p m tpi ts t1 t2] c ck tk tr]. sim.
  unfold XGBoostEstimator.fit. unf_prim. sim.
  xgb_cases p X_train;
    (destruct (p !! "n_estimators") as [nv|] eqn:Hn; sim; [|discriminate]);
    intros [= <- <-]; sim.
  all: unfold dict_get; map_lookup.
  all: split; [done|]; split; [by map_lookup|].
  all: intros k H1 H2; destruct (decide (k = "n_estimators")) as [->|H3];
    [ by map_lookup
    | by rewrite ?lookup_insert_ne, ?lookup_delete_ne, ?lookup_insert_ne
        by congruence ].
Qed.

Lemma xgboost_fit_params_frame_witness :
  params (self (XGBoostEstimator.fit X1000 None xgb_s0).2) !! "objective"
  = Some (dict_get "objective" VNone (params (self xgb_s0)))
  /\ params (self (XGBoostEstimator.fit X1000 None xgb_s0).2) !! "tree_method"
     = (if issparse X1000 then Some (VStr "auto")
        else params (self xgb_s0) !! "tree_method")
  /\ (forall k, k <> "objective" -> k <> "tree_method" ->
        params (self (XGBoostEstimator.fit X1000 None xgb_s0).2) !! k
        = params (self xgb_s0) !! k).
Proof.
  apply (xgboost_fit_params_frame X1000 None xgb_s0 7%Q
           (XGBoostEstimator.fit X1000 None xgb_s0).2).
  vm_compute. reflexivity.
Defined.

(** ** Configuration mappers: what reaches the library *)

(** X14. Whatever the estimator family, a parameter mapping produced by
    [config2params] never contains the control key
    [resources_per_trial]. *)
Theorem config2params_strips_resources (f : family)
    (c p : gmap string value) :
  config2params f c = Ok p -> p !! "resources_per_trial" = None.
Proof.
  destruct f; unfold config2params; try discriminate.
  all: try (intros [= <-]).
  all: try (unfold LRL1Classifier.config2params, LRL2Classifier.config2params,
              KNeighborsEstimator.config2params; by map_lookup).
  - unfold LGBMEstimator.config2params.
    destruct (_ !! "log_max_bin") as [v|]; [|intros [= <-]; by map_lookup].
    destruct (shl_one v); cbn; [|discriminate]. intros [= <-]. by map_lookup.
  - unfold XGBoostEstimator.config2params.
    destruct (c !! "n_jobs").
    + match goal with |- context [match ?m !! "n_jobs" with _ => _ end] =>
        destruct (m !! "n_jobs") end; [|discriminate].
      intros [= <-]. by map_lookup.
    + intros [= <-]. by map_lookup.
  - unfold CatBoostEstimator.config2params.
    match goal with |- context [match ?m !! "n_jobs" with _ => _ end] =>
      destruct (m !! "n_jobs") end; by map_lookup.
Qed.

Lemma config2params_strips_resources_witness :
  LGBMEstimator.config2params sample_config
  = Ok (<["max_bin" := VInt 255]> (<["n_estimators" := VInt 100]> ∅))
  /\ (<["max_bin" := VInt 255]> (<["n_estimators" := VInt 100]> ∅)
      : gmap string value) !! "resources_per_trial" = None.
Proof.
  split; [vm_compute; reflexivity|].
  apply (config2params_strips_resources LGBM sample_config).
  vm_compute. reflexivity.
Defined.

(** X15. [XGBoostEstimator.config2params] never raises. It renames
    [n_jobs] to [nthread] (a given [n_jobs] wins over a given [nthread]),
    fills [max_depth], [grow_policy], [booster], [use_label_encoder] and
    [tree_method] with their defaults only where the configuration has no
    value, and passes every other hyperparameter through unchanged. *)
Theorem xgboost_config2params_result (c : gmap string value) :
  exists p,
    XGBoostEstimator.config2params c = Ok p
    /\ p !! "n_jobs" = None
    /\ p !! "nthread"
       = match c !! "n_jobs" with Some v => Some v | None => c !! "nthread" end
    /\ p !! "max_depth" = Some (dict_get "max_depth" (VInt 0) c)
    /\ p !! "grow_policy" = Some (dict_get "grow_policy" (VStr "lossguide") c)
    /\ p !! "booster" = Some (dict_get "booster" (VStr "gbtree") c)
    /\ p !! "use_label_encoder"
       = Some (dict_get "use_label_encoder" (VBool false) c)
    /\ p !! "tree_method" = Some (dict_get "tree_method" (VStr "hist") c)
    /\ (forall k,
          k ∉ ["resources_per_trial"; "n_jobs"; "nthread"; "max_depth";
               "grow_policy"; "booster"; "use_label_encoder"; "tree_method"] ->
          p !! k = c !! k).
Proof.
  unfold XGBoostEstimator.config2params.
  assert (Hk : forall k : string,
    k ∉ ["resources_per_trial"; "n_jobs"; "nthread"; "max_depth";
         "grow_policy"; "booster"; "use_label_encoder"; "tree_method"] ->
    k <> "resources_per_trial" /\ k <> "n_jobs" /\ k <> "nthread"
    /\ k <> "max_depth" /\ k <> "grow_policy" /\ k <> "booster"
    /\ k <> "use_label_encoder" /\ k <> "tree_method").
  { intros k Hk. repeat split; intros ->; apply Hk; set_solver. }
  destruct (c !! "n_jobs") as [w|] eqn:E.
  - match goal with |- context [match ?m !! "n_jobs" with _ => _ end] =>
      assert (Hj : m !! "n_jobs" = Some w) by (by map_lookup)
    end.
    rewrite Hj. eexists. split; [reflexivity|].
    unfold set_default, dict_get.
    repeat (split; [by map_lookup|]).
    intros k Hnot. apply Hk in Hnot as (?&?&?&?&?&?&?&?).
    rewrite lookup_insert_ne, lookup_delete_ne by congruence.
    rewrite !lookup_insert_ne by congruence. by apply base_lookup_ne.
  - eexists. split; [reflexivity|].
    unfold set_default, dict_get.
    repeat (split; [by map_lookup|]).
    intros k Hnot. apply Hk in Hnot as (?&?&?&?&?&?&?&?).
    rewrite !lookup_insert_ne by congruence. by apply base_lookup_ne.
Qed.

(** X16. [CatBoostEstimator.config2params] always provides [n_estimators]
    (8192 unless the configuration gives one), renames [n_jobs] to
    [thread_count] and passes every other hyperparameter through
    unchanged. *)
Theorem catboost_config2params_result (c : gmap string value) :
  let p := CatBoostEstimator.config2params c in
  p !! "n_estimators" = Some (dict_get "n_estimators" (VInt 8192) c)
  /\ p !! "n_jobs" = None
  /\ p !! "thread_count"
     = match c !! "n_jobs" with Some v => Some v | None => c !! "thread_count" end
  /\ (forall k,
        k <> "resources_per_trial" -> k <> "n_jobs" -> k <> "thread_count" ->
        k <> "n_estimators" -> p !! k = c !! k).
Proof.
  unfold CatBoostEstimator.config2params. cbn zeta.
  match goal with |- context [match ?m !! "n_jobs" with _ => _ end] =>
    assert (Hj : m !! "n_jobs" = c !! "n_jobs") by (by map_lookup);
    rewrite Hj
  end.
  unfold set_default, dict_get.
  destruct (c !! "n_jobs") as [w|] eqn:E.
  - repeat (split; [by map_lookup|]).
    intros k H1 H2 H3 H4.
    rewrite lookup_insert_ne, lookup_delete_ne, lookup_insert_ne by congruence.
    by apply base_lookup_ne.
  - split; [by map_lookup|]. split; [by map_lookup|]. split; [by map_lookup|].
    intros k H1 H2 H3 H4. rewrite lookup_insert_ne by congruence.
    by apply base_lookup_ne.
Qed.

(** X17. [LGBMEstimator.config2params] touches three keys only:
    [resources_per_trial], [log_max_bin] and [max_bin]. Every other
    hyperparameter passes through; a given [max_bin] is kept when there is
    no [log_max_bin] and overwritten when there is one; a [log_max_bin]
    that is a float, a string or [None] raises [TypeError]. *)
Theorem lgbm_config2params_frame (c : gmap string value) :
  (forall p, LGBMEstimator.config2params c = Ok p ->
     (forall k, k <> "resources_per_trial" -> k <> "log_max_bin" ->
                k <> "max_bin" -> p !! k = c !! k)
     /\ (c !! "log_max_bin" = None -> p !! "max_bin" = c !! "max_bin")
     /\ (forall v, c !! "log_max_bin" = Some (VInt v) ->
                   p !! "max_bin" = Some (VInt (2 ^ v - 1))))
  /\ (forall v, c !! "log_max_bin" = Some v ->
        (forall z, v <> VInt z) -> (forall b, v <> VBool b) ->
        LGBMEstimator.config2params c = Raise TypeError).
Proof.
  unfold LGBMEstimator.config2params.
  rewrite base_lookup_ne by discriminate. split.
  - intros p. destruct (c !! "log_max_bin") as [v|] eqn:E.
    + destruct (shl_one v) as [sh|] eqn:Hs; cbn; [|discriminate].
      intros [= <-]. split; [|split].
      * intros k H1 H2 H3.
        rewrite lookup_insert_ne, lookup_delete_ne by congruence.
        by apply base_lookup_ne.
      * discriminate.
      * intros z [= ->]. map_lookup. cbn in Hs.
        destruct (Z.ltb_spec z 0); [discriminate|].
        injection Hs as <-. by rewrite Z.shiftl_1_l.
    + intros [= <-]. split; [|split].
      * intros k H1 H2 H3. by apply base_lookup_ne.
      * intros _. by apply base_lookup_ne.
      * discriminate.
  - intros v -> Hz Hb. destruct v; try done.
    + by destruct (Hb b).
    + by destruct (Hz z).
Qed.

Lemma lgbm_config2params_frame_witness :
  exists p,
    LGBMEstimator.config2params sample_config = Ok p
    /\ p !! "n_estimators" = sample_config !! "n_estimators"
    /\ p !! "max_bin" = Some (VInt (2 ^ 8 - 1)).
Proof.
  exists (<["max_bin" := VInt 255]> (<["n_estimators" := VInt 100]> ∅)).
  assert (Hp : LGBMEstimator.config2params sample_config
               = Ok (<["max_bin" := VInt 255]>
                       (<["n_estimators" := VInt 100]> ∅)))
    by (vm_compute; reflexivity).
  split; [exact Hp|].
  destruct (proj1 (lgbm_config2params_frame sample_config) _ Hp)
    as (H1 & _ & H3).
  split.
  - apply H1; discriminate.
  - apply H3. vm_compute. reflexivity.
Defined.

(** X18. The declared search space and the mapper fit together: for every
    value [v] of the domain [LGBMEstimator.search_space] declares for
    [log_max_bin], the mapper succeeds and produces a [max_bin] between 7
    and 1023. *)
Theorem lgbm_log_max_bin_domain (data_size : Z) (e : hp) (lo hi v : Z)
    (c : gmap string value) :
  In ("log_max_bin", e) (LGBMEstimator.search_space data_size) ->
  hp_domain e = lograndint lo hi ->
  lo <= v < hi ->
  c !! "log_max_bin" = Some (VInt v) ->
  exists p mb,
    LGBMEstimator.config2params c = Ok p
    /\ p !! "log_max_bin" = None
    /\ p !! "max_bin" = Some (VInt mb)
    /\ 7 <= mb <= 1023.
Proof.
  intros Hin Hdom Hv Hc.
  assert (lo = 3 /\ hi = 11) as [-> ->].
  { cbn in Hin.
    repeat (destruct Hin as [Hin|Hin]; [try discriminate|]);
      [|contradiction].
    injection Hin as <-. cbn in Hdom. by injection Hdom as <- <-. }
  unfold LGBMEstimator.config2params.
  rewrite base_lookup_ne by discriminate. rewrite Hc. cbn.
  destruct (Z.ltb_spec v 0); [lia|]. cbn.
  eexists _, _. split; [reflexivity|]. split; [by map_lookup|].
  split; [by map_lookup|].
  rewrite Z.shiftl_1_l.
  assert (2 ^ 3 <= 2 ^ v) by (apply Z.pow_le_mono_r; lia).
  assert (2 ^ v <= 2 ^ 10) by (apply Z.pow_le_mono_r; lia).
  lia.
Qed.

Lemma lgbm_log_max_bin_domain_witness :
  exists p mb,
    LGBMEstimator.config2params sample_config = Ok p
    /\ p !! "log_max_bin" = None
    /\ p !! "max_bin" = Some (VInt mb)
    /\ 7 <= mb <= 1023.
Proof.
  apply (lgbm_log_max_bin_domain 1000
           (HP (lograndint 3 11) (Some (VInt 8)) None) 3 11 8 sample_config).
  - vm_compute. tauto.
  - reflexivity.
  - lia.
  - vm_compute. reflexivity.
Defined.

(** ** Search spaces: domains and initial values *)

(** X19. For the tree families, with more than 4 rows every integer domain
    of the search space is non-empty and contains its initial value and
    its low-cost initial value; with 4 rows or fewer the domain declared
    for [n_estimators] is empty (its upper bound does not exceed its lower
    bound 4). *)
Theorem tree_search_space_initial_values (CLASSIFICATION : list string)
    (f : family) (data_size : Z) (task : string) (sp : list (string * hp))
    (name : string) (e : hp) (lo hi : Z) :
  tree_family f = true ->
  search_space CLASSIFICATION f data_size task = Ok sp ->
  In (name, e) sp ->
  hp_domain e = lograndint lo hi ->
  (4 < data_size ->
     lo < hi
     /\ (forall v, init_value e = Some (VInt v) -> lo <= v < hi)
     /\ (forall v, low_cost_init_value e = Some (VInt v) -> lo <= v < hi))
  /\ (data_size <= 4 -> name = "n_estimators" -> hi <= lo).
Proof.
  intros Hf Hsp Hin Hdom.
  destruct f; try discriminate; cbn in Hsp; injection Hsp as <-.
  all: try (unfold RandomForestEstimator.search_space in Hin;
            destruct (bool_decide _)).
  all: cbn in Hin.
  all: repeat (destruct Hin as [Hin|Hin];
               [injection Hin as <- <-; cbn in Hdom; try discriminate;
                injection Hdom as <- <-|]);
       try contradiction.
  all: split; [intros Hds; cbn; split; [lia|];
               split; intros v [= <-]; lia
              | intros Hds Hname; try discriminate; lia].
Qed.

Lemma tree_search_space_initial_values_witness :
  (4 < 1000 ->
     4 < 1000
     /\ (forall v, init_value (HP (lograndint 4 1000) (Some (VInt 4))
                                 (Some (VInt 4))) = Some (VInt v) ->
                   4 <= v < 1000)
     /\ (forall v, low_cost_init_value (HP (lograndint 4 1000) (Some (VInt 4))
                                          (Some (VInt 4))) = Some (VInt v) ->
                   4 <= v < 1000))
  /\ (1000 <= 4 -> "n_estimators" = "n_estimators" -> 1000 <= 4).
Proof.
  apply (tree_search_space_initial_values ["binary"; "multi"] LGBM 1000
           "binary" (LGBMEstimator.search_space 1000) "n_estimators"
           (HP (lograndint 4 1000) (Some (VInt 4)) (Some (VInt 4))) 4 1000).
  - reflexivity.
  - reflexivity.
  - vm_compute. tauto.
  - reflexivity.
Defined.

(** X20. [KNeighborsEstimator.search_space] declares
    [n_neighbors] in [[1, min(512, int(data_size / 2)))]: the domain is
    non-empty exactly from 4 rows on, and it contains the initial value 5
    exactly from 12 rows on. *)
Theorem kneighbors_search_space_domain (data_size : Z) :
  0 <= data_size ->
  exists hi,
    KNeighborsEstimator.search_space data_size
    = [("n_neighbors", HP (lograndint 1 hi) (Some (VInt 5)) (Some (VInt 1)))]
    /\ hi = Z.min 512 (data_size / 2)
    /\ (1 < hi <-> 4 <= data_size)
    /\ (5 < hi <-> 12 <= data_size).
Proof.
  intros Hds. eexists. split; [reflexivity|].
  rewrite Qtrunc_half, Z.quot_div_nonneg by lia.
  split; [done|].
  assert (H2 : 2 * (data_size / 2) <= data_size < 2 * (data_size / 2) + 2).
  { pose proof (Z.div_mod data_size 2 ltac:(lia)).
    pose proof (Z.mod_pos_bound data_size 2 ltac:(lia)). lia. }
  split; split; intros H; lia.
Qed.

Lemma kneighbors_search_space_domain_witness :
  exists hi,
    KNeighborsEstimator.search_space 1000
    = [("n_neighbors", HP (lograndint 1 hi) (Some (VInt 5)) (Some (VInt 1)))]
    /\ hi = Z.min 512 (1000 / 2)
    /\ (1 < hi <-> 4 <= 1000)
    /\ (5 < hi <-> 12 <= 1000).
Proof. apply (kneighbors_search_space_domain 1000). lia. Defined.

Ltac qlin :=
  repeat match goal with
         | H : context [inject_Z ?z] |- _ =>
             let x := fresh "x" in
             set (x := inject_Z z) in *; clearbody x
         end;
  repeat match goal with
         | H : Z.lt _ _ |- _ => clear H
         | H : Z.le _ _ |- _ => clear H
         end;
  lra.

Lemma floor_bounds (q : Q) :
  (inject_Z (Qfloor q) <= q /\ q < inject_Z (Qfloor q) + 1)%Q.
Proof.
  split; [apply Qfloor_le|].
  apply Qlt_le_trans with (inject_Z (Qfloor q + 1)); [apply Qlt_floor|].
  rewrite inject_Z_plus. apply Qle_refl.
Qed.

Lemma inject_Z_le_succ (a b : Z) :
  a + 1 <= b -> (inject_Z a + 1 <= inject_Z b)%Q.
Proof.
  intros H. apply Qle_trans with (inject_Z (a + 1)).
  - rewrite inject_Z_plus. apply Qle_refl.
  - by rewrite <- Zle_Qle.
Qed.

Lemma py_round_ge (q : Q) (k : Z) :
  (inject_Z k - (1 # 2) < q)%Q -> k <= py_round q.
Proof.
  intros H. unfold py_round.
  destruct (floor_bounds q) as [Hlo Hhi].
  set (f := Qfloor q) in *.
  assert (Hf : k - 1 <= f).
  { destruct (Z.le_gt_cases (k - 1) f) as [|Hlt]; [done|]. exfalso.
    pose proof (inject_Z_le_succ f (k - 1) ltac:(lia)) as Hq.
    pose proof (inject_Z_le_succ (k - 1) k ltac:(lia)) as Hq'. qlin. }
  destruct (Qltb (q - inject_Z f) (1 # 2)) eqn:E.
  - apply Qltb_lt in E.
    destruct (Z.le_gt_cases k f) as [|Hlt]; [done|]. exfalso.
    pose proof (inject_Z_le_succ f k ltac:(lia)) as Hq. qlin.
  - destruct (Qltb (1 # 2) _) eqn:E2; [lia|].
    destruct (Z.le_gt_cases k f) as [|Hlt]; [destruct (Z.even _); lia|].
    exfalso. pose proof (inject_Z_le_succ f k ltac:(lia)) as Hq.
    unfold Qltb in E2. apply negb_false_iff, Qle_bool_iff in E2. qlin.
Qed.

Lemma py_round_le_even (q : Q) (k : Z) :
  (q <= inject_Z k + (1 # 2))%Q -> Z.even k = true -> py_round q <= k.
Proof.
  intros H Hev. unfold py_round.
  destruct (floor_bounds q) as [Hlo Hhi].
  set (f := Qfloor q) in *.
  assert (Hf : f <= k).
  { destruct (Z.le_gt_cases f k) as [|Hlt]; [done|]. exfalso.
    pose proof (inject_Z_le_succ k f ltac:(lia)) as Hq. qlin. }
  destruct (Qltb (q - inject_Z f) (1 # 2)) eqn:E; [done|].
  destruct (Z.eq_dec f k) as [Heq|Hne].
  - rewrite Heq in *.
    destruct (Qltb (1 # 2) (q - inject_Z k)) eqn:E2.
    + apply Qltb_lt in E2. exfalso. qlin.
    + rewrite Hev. lia.
  - destruct (Qltb (1 # 2) _); [lia|]. destruct (Z.even f); lia.
Qed.

(** X21. [CatBoostEstimator.search_space] raises [ZeroDivisionError] for an
    empty data set. Otherwise [early_stopping_rounds] ranges over
    [[10, upper)] with [12 <= upper <= 150], so the domain always contains
    the initial value 10; the upper bound is 150 up to 10033 rows and 12
    from 120000 rows on. *)
Theorem catboost_search_space_early_stopping (data_size : Z) :
  (data_size = 0 ->
     CatBoostEstimator.search_space data_size = Raise ZeroDivisionError)
  /\ (data_size <> 0 ->
      exists upper rest,
        CatBoostEstimator.search_space data_size
        = Ok (("early_stopping_rounds",
               HP (lograndint 10 upper) (Some (VInt 10)) (Some (VInt 10)))
              :: rest)
        /\ 12 <= upper <= 150
        /\ (1 <= data_size <= 10033 -> upper = 150)
        /\ (120000 <= data_size -> upper = 12)).
Proof.
  split.
  - intros ->. reflexivity.
  - intros Hnz. unfold CatBoostEstimator.search_space.
    assert (Htr : truthy (inject_Z data_size) = true).
    { apply truthy_true. unfold Qeq. cbn. lia. }
    rewrite (qdiv_ok _ _ Htr). cbn [rbind].
    eexists _, _. split; [reflexivity|]. split; [lia|].
    set (q := (inject_Z 1500000 / inject_Z data_size)%Q).
    split.
    + intros [H1 H2].
      assert (150 <= py_round q); [|lia].
      apply py_round_ge. subst q.
      apply Qlt_shift_div_l; [apply inject_Z_pos; lia|].
      unfold Qlt, Qminus, Qplus, Qmult, Qopp, inject_Z. cbn. lia.
    + intros H.
      assert (py_round q <= 12); [|lia].
      apply py_round_le_even; [|done]. subst q.
      apply Qle_shift_div_r; [apply inject_Z_pos; lia|].
      unfold Qle, Qminus, Qplus, Qmult, Qopp, inject_Z. cbn. lia.
Qed.

Lemma catboost_search_space_early_stopping_witness :
  exists upper rest,
    CatBoostEstimator.search_space 200000
    = Ok (("early_stopping_rounds",
           HP (lograndint 10 upper) (Some (VInt 10)) (Some (VInt 10)))
          :: rest)
    /\ upper = 12.
Proof.
  destruct (proj2 (catboost_search_space_early_stopping 200000) ltac:(lia))
    as (upper & rest & H1 & _ & _ & H4).
  exists upper, rest. split; [exact H1 | apply H4; lia].
Defined.

(** ** [CatBoostEstimator.fit]: the shape of a call *)

Lemma catboost_finish_runs tc X st s r s' :
  CatBoostEstimator.finish tc X st s = (r, s') ->
  trace s' = trace s
  \/ exists m, trace s' = (trace s ++ [(Final, m)])%list
               /\ trained_on m = CatBoostEstimator.holdout (rows X).
Proof.
  destruct s as [[p m tpi ts t1 t2] c ck tk tr].
  unfold CatBoostEstimator.finish. unf_prim. sim. intros H.
  crunch; sim; first [ by left | right; eexists; split; reflexivity ].
Qed.

Lemma catboost_solve_runs tc X budget st n trained s r s' :
  CatBoostEstimator.solve tc X budget st n trained s = (r, s') ->
  trace s' = trace s
  \/ exists m, trace s' = (trace s ++ [(Final, m)])%list
               /\ trained_on m = CatBoostEstimator.holdout (rows X).
Proof.
  unfold CatBoostEstimator.solve.
  destruct budget as [b|]; [destruct (truthy b && (4 <? n)) eqn:Hn|];
    try apply catboost_finish_runs.
  destruct s as [[p m tpi ts t1 t2] c ck tk tr]. unf_prim. sim. intros H.
  crunch; sim;
    try match goal with
        | H : CatBoostEstimator.finish _ _ _ _ = _ |- _ =>
            apply catboost_finish_runs in H; sim; exact H
        end;
    by left.
Qed.

(** X22. Whatever its outcome, a call of [CatBoostEstimator.fit] makes at
    most three training runs, in the order first calibration fit, second
    calibration fit, definitive fit. The calibration fits train on the
    whole training set; the definitive fit trains on the leading
    [holdout] rows only. *)
Theorem catboost_fit_runs (tree_count_ : trained -> Z) (X : dataset)
    (budget : option Q) (s : state) (r : result Q) (s' : state) :
  CatBoostEstimator.fit tree_count_ X budget s = (r, s') ->
  exists runs, added_runs s s' runs
    /\ (sites runs = [] \/ sites runs = [Final] \/ sites runs = [Probe1]
        \/ sites runs = [Probe1; Probe2]
        \/ sites runs = [Probe1; Probe2; Final])
    /\ Forall (catboost_rows X) runs.
Proof.
  destruct s as [[p m tpi ts t1 t2] c ck tk tr].
  unfold CatBoostEstimator.fit, CatBoostEstimator.probe. unf_prim. sim.
  intros H.
  crunch;
    try match goal with
        | H : CatBoostEstimator.solve _ _ _ _ _ _ _ = _ |- _ =>
            apply catboost_solve_runs in H; sim;
            destruct H as [H | (m' & H & Hrows)]; rewrite H
        end;
    rewrite <- ?app_assoc; sim;
    first [ exists []; split; [by rewrite app_nil_r | split; [by left|done]]
          | eexists; split; [reflexivity|]; sim;
            split; [tauto | repeat constructor; done] ].
Qed.

Lemma catboost_fit_runs_witness :
  exists runs, added_runs catboost_s0 catboost_s1 runs
    /\ (sites runs = [] \/ sites runs = [Final] \/ sites runs = [Probe1]
        \/ sites runs = [Probe1; Probe2]
        \/ sites runs = [Probe1; Probe2; Final])
    /\ Forall (catboost_rows X1000) runs.
Proof.
  apply (catboost_fit_runs tree_count_of X1000 (Some 100%Q) catboost_s0
           (Ok 50%Q) catboost_s1).
  vm_compute. reflexivity.
Defined.

(** ** The evaluation split *)

Lemma Qtrunc_nine_tenths (n : Z) :
  0 <= n -> Qtrunc (inject_Z n * (9 # 10)) = n * 9 / 10.
Proof.
  intros H. unfold Qtrunc, inject_Z, Qmult. cbn [Qnum Qden].
  rewrite Z.quot_div_nonneg by lia. reflexivity.
Qed.

Lemma holdout_split (len : nat) :
  (CatBoostEstimator.holdout len <= len)%nat
  /\ Z.of_nat len - Z.of_nat (CatBoostEstimator.holdout len)
     = Z.min ((Z.of_nat len + 9) / 10) 1000.
Proof.
  unfold CatBoostEstimator.holdout.
  rewrite Qtrunc_nine_tenths by lia.
  set (L := Z.of_nat len). assert (0 <= L) by lia.
  pose proof (Z.div_mod (L * 9) 10 ltac:(lia)) as H1.
  pose proof (Z.mod_pos_bound (L * 9) 10 ltac:(lia)) as H2.
  pose proof (Z.div_mod (L + 9) 10 ltac:(lia)) as H3.
  pose proof (Z.mod_pos_bound (L + 9) 10 ltac:(lia)) as H4.
  split; [lia|]. rewrite Z2Nat.id by lia. lia.
Qed.

(** X23. The split before the definitive CatBoost fit: of [len] rows the
    trailing [min(ceil(len / 10), 1000)] are held out for evaluation and
    the rest is trained on; nothing is trained on when there is a single
    row. *)
Theorem catboost_holdout_rows (len : nat) :
  let n := CatBoostEstimator.holdout len in
  (n <= len)%nat
  /\ Z.of_nat len - Z.of_nat n = Z.min ((Z.of_nat len + 9) / 10) 1000
  /\ (len = 1%nat -> n = 0%nat).
Proof.
  cbn zeta. destruct (holdout_split len) as [H1 H2].
  split; [exact H1|]. split; [exact H2|]. intros ->. reflexivity.
Qed.

(** X24. [TransformersEstimator._split_train_val]: unless both [X_val]
    and [y_val] are passed a validation set given on its own is ignored,
    and the training rows are split as for CatBoost, the two parts
    adding up to the input; with both, all rows are trained on. *)
Theorem split_train_val_parts (len : nat) (X_val y_val : option nat) :
  (X_val = None \/ y_val = None ->
   let '(tr, va) := _split_train_val len X_val y_val in
   (tr + va = len)%nat
   /\ Z.of_nat va = Z.min ((Z.of_nat len + 9) / 10) 1000)
  /\ (forall v w, X_val = Some v -> y_val = Some w ->
      _split_train_val len X_val y_val = (len, v)).
Proof.
  split.
  - intros Hnone.
    assert (_split_train_val len X_val y_val
            = (CatBoostEstimator.holdout len,
               (len - CatBoostEstimator.holdout len)%nat)) as ->.
    { unfold _split_train_val. destruct Hnone as [-> | ->]; [done|].
      by destruct X_val. }
    destruct (holdout_split len) as [H1 H2].
    split; lia.
  - by intros v w -> ->.
Qed.

Lemma split_train_val_parts_witness :
  let '(tr, va) := _split_train_val 2500 (Some 10%nat) None in
  (tr + va = 2500)%nat
  /\ Z.of_nat va = Z.min ((Z.of_nat 2500 + 9) / 10) 1000.
Proof.
  apply (proj1 (split_train_val_parts 2500 (Some 10%nat) None)).
  right. reflexivity.
Defined.

(** ** [size] *)

(** X25. [LGBMEstimator.size] for integer hyperparameters: a non-zero
    [num_leaves] decides the size whatever [max_leaves] is; when
    [num_leaves] is absent or zero [max_leaves] is used, and its absence
    raises [KeyError]. With [N] trees of [L] leaves the size is
    [8 * N * (7 * L - 3)] bytes. *)
Theorem lgbm_size_leaves (config : gmap string value) (N : Z) :
  config !! "n_estimators" = Some (VInt N) ->
  (forall K, config !! "num_leaves" = Some (VInt K) -> K <> 0 ->
     exists q, Size.lgbm config = Ok q
               /\ (q == inject_Z (8 * N * (7 * K - 3)))%Q)
  /\ (config !! "num_leaves" = None \/ config !! "num_leaves" = Some (VInt 0) ->
      match config !! "max_leaves" with
      | Some (VInt L) =>
          exists q, Size.lgbm config = Ok q
                    /\ (q == inject_Z (8 * N * (7 * L - 3)))%Q
      | Some _ => True
      | None => Size.lgbm config = Raise (KeyError "max_leaves")
      end).
Proof.
  intros HN. split.
  - intros K HK Hnz. unfold Size.lgbm, dict_item. rewrite HK, HN. cbn.
    apply Z.eqb_neq in Hnz. rewrite Hnz. cbn.
    eexists. split; [reflexivity|].
    unfold Qeq, Qmult, Qplus, inject_Z. cbn. lia.
  - intros Hnum. unfold Size.lgbm, dict_item.
    assert (Hleaves :
      match config !! "num_leaves" with
      | Some v => if value_truthy v then Ok v
                  else match config !! "max_leaves" with
                       | Some v => Ok v
                       | None => Raise (KeyError "max_leaves")
                       end
      | None => match config !! "max_leaves" with
                | Some v => Ok v
                | None => Raise (KeyError "max_leaves")
                end
      end
      = match config !! "max_leaves" with
        | Some v => Ok v
        | None => Raise (KeyError "max_leaves")
        end).
    { by destruct Hnum as [-> | ->]. }
    rewrite Hleaves. destruct (config !! "max_leaves") as [[| | L | |]|];
      try done.
    rewrite HN. cbn. eexists. split; [reflexivity|].
    unfold Qeq, Qmult, Qplus, inject_Z. cbn. lia.
Qed.

Lemma lgbm_size_leaves_witness :
  (forall K, size_config !! "num_leaves" = Some (VInt K) -> K <> 0 ->
     exists q, Size.lgbm size_config = Ok q
               /\ (q == inject_Z (8 * 4 * (7 * K - 3)))%Q)
  /\ (size_config !! "num_leaves" = None
      \/ size_config !! "num_leaves" = Some (VInt 0) ->
      match size_config !! "max_leaves" with
      | Some (VInt L) =>
          exists q, Size.lgbm size_config = Ok q
                    /\ (q == inject_Z (8 * 4 * (7 * L - 3)))%Q
      | Some _ => True
      | None => Size.lgbm size_config = Raise (KeyError "max_leaves")
      end).
Proof. apply (lgbm_size_leaves size_config 4). vm_compute. reflexivity. Defined.

(** ** [predict_proba] before [fit] *)

(** X26. Unlike [predict], [BaseEstimator.predict_proba] has no fallback
    for an estimator that was never fitted: it never returns
    probabilities, and on a classification task it raises
    [AttributeError]. *)
Theorem predict_proba_before_fit (CLASSIFICATION : list string)
    (task : string)
    (model_predict_proba : trained -> xdata -> result (list (list Q)))
    (i : instance) (X_test : xdata) :
  _model i = None ->
  (forall p, predict_proba CLASSIFICATION task model_predict_proba i X_test
             <> Passed (Ok p))
  /\ (task ∈ CLASSIFICATION ->
      predict_proba CLASSIFICATION task model_predict_proba i X_test
      = Passed (Raise AttributeError)).
Proof.
  intros Hm. unfold predict_proba. rewrite Hm. split.
  - intros p. by case_bool_decide.
  - intros Hin. by rewrite bool_decide_eq_true_2.
Qed.

Lemma predict_proba_before_fit_witness :
  (forall p, predict_proba ["binary"; "multi"] "binary"
               (fun _ _ => Ok []) (unfitted sample_config) (Table 3 false)
             <> Passed (Ok p))
  /\ ("binary" ∈ ["binary"; "multi"] ->
      predict_proba ["binary"; "multi"] "binary" (fun _ _ => Ok [])
        (unfitted sample_config) (Table 3 false)
      = Passed (Raise AttributeError)).
Proof.
  apply (predict_proba_before_fit ["binary"; "multi"] "binary"
           (fun _ _ => Ok []) (unfitted sample_config) (Table 3 false)).
  reflexivity.
Defined.

(** ** Construction *)


(** ** [predict] with a number of steps *)

(** X28. An integer [X_test] on an estimator that was never fitted: only
    [ARIMA.predict] answers it, with that many ones (a negative number
    raises [ValueError]); [BaseEstimator.predict] raises
    [AttributeError] and [Prophet.predict] raises [ValueError]. *)
Theorem predict_steps_before_fit
    (model_predict : trained -> xdata -> result (list Q))
    (i : instance) (k : Z) :
  _model i = None ->
  BaseEstimator.predict model_predict i (Steps k) = Raise AttributeError
  /\ Prophet.predict model_predict i (Steps k) = Raise ValueError
  /\ (0 <= k -> exists v, ARIMA.predict model_predict i (Steps k) = Ok v
                          /\ Z.of_nat (length v) = k
                          /\ Forall (fun x => x = 1%Q) v)
  /\ (k < 0 -> ARIMA.predict model_predict i (Steps k) = Raise ValueError).
Proof.
  intros Hm. unfold BaseEstimator.predict, Prophet.predict, ARIMA.predict.
  rewrite Hm. cbn [shape0 rbind]. unfold np_ones.
  split; [done|]. split; [done|]. split.
  - intros Hk. apply Z.ltb_ge in Hk. rewrite Hk.
    eexists. split; [reflexivity|]. apply Z.ltb_ge in Hk.
    split; [rewrite repeat_length; lia|].
    induction (Z.to_nat k); constructor; auto.
  - intros Hk. apply Z.ltb_lt in Hk. by rewrite Hk.
Qed.

Lemma predict_steps_before_fit_witness :
  BaseEstimator.predict (fun _ _ => Ok []) (unfitted sample_config) (Steps 3)
  = Raise AttributeError
  /\ Prophet.predict (fun _ _ => Ok []) (unfitted sample_config) (Steps 3)
     = Raise ValueError
  /\ (0 <= 3 ->
      exists v, ARIMA.predict (fun _ _ => Ok []) (unfitted sample_config)
                  (Steps 3) = Ok v
                /\ Z.of_nat (length v) = 3
                /\ Forall (fun x => x = 1%Q) v)
  /\ (3 < 0 -> ARIMA.predict (fun _ _ => Ok []) (unfitted sample_config)
                 (Steps 3) = Raise ValueError).
Proof.
  apply (predict_steps_before_fit (fun _ _ => Ok []) (unfitted sample_config) 3).
  reflexivity.
Defined.

(** ** The logistic-regression mappers *)

Lemma set_default_lookup_eq (k : string) (d : value) (m : gmap string value) :
  set_default k d m !! k = Some (dict_get k d m).
Proof. unfold set_default. by rewrite lookup_insert_eq. Qed.

(** X29. [LRL1Classifier] and [LRL2Classifier] differ in defaults only: a
    [penalty] (or [solver]) given in the configuration overrides the
    class's own, so a configuration that gives both is mapped to the same
    parameters by the two classes; without them the penalties are ["l1"]
    and ["l2"]. *)
Theorem logistic_mappers_differ_in_defaults (c : gmap string value) :
  (is_Some (c !! "solver") -> is_Some (c !! "penalty") ->
   LRL1Classifier.config2params c = LRL2Classifier.config2params c)
  /\ (forall v, c !! "penalty" = Some v ->
        LRL1Classifier.config2params c !! "penalty" = Some v
        /\ LRL2Classifier.config2params c !! "penalty" = Some v)
  /\ (c !! "penalty" = None ->
        LRL1Classifier.config2params c !! "penalty" = Some (VStr "l1")
        /\ LRL2Classifier.config2params c !! "penalty" = Some (VStr "l2")).
Proof.
  unfold LRL1Classifier.config2params, LRL2Classifier.config2params.
  cbn zeta.
  set (p := set_default "tol" (VFloat (1 # 10000))
              (BaseEstimator.config2params c)).
  assert (Hp : forall k, k <> "tol" -> k <> "resources_per_trial" ->
                         p !! k = c !! k).
  { intros k H1 H2. subst p. rewrite set_default_lookup_ne by congruence.
    by apply base_lookup_ne. }
  assert (Hpen : forall d d', dict_get "penalty" d (set_default "solver" d' p)
                              = dict_get "penalty" d c).
  { intros d d'. unfold dict_get.
    rewrite set_default_lookup_ne by discriminate.
    by rewrite Hp by discriminate. }
  split; [|split].
  - intros [sv Hs] [pv Hv].
    assert (Hs' : p !! "solver" = Some sv) by (by rewrite Hp by discriminate).
    rewrite !(set_default_present "solver" _ p sv) by exact Hs'.
    assert (Hv' : p !! "penalty" = Some pv) by (by rewrite Hp by discriminate).
    by rewrite !(set_default_present "penalty" _ p pv) by exact Hv'.
  - intros v Hv. rewrite !set_default_lookup_eq.
    rewrite !Hpen. unfold dict_get. by rewrite Hv.
  - intros Hv. rewrite !set_default_lookup_eq.
    rewrite !Hpen. unfold dict_get. by rewrite Hv.
Qed.

Lemma logistic_mappers_differ_in_defaults_witness :
  LRL1Classifier.config2params sample_config !! "penalty" = Some (VStr "l1")
  /\ LRL2Classifier.config2params sample_config !! "penalty"
     = Some (VStr "l2").
Proof.
  apply (proj2 (proj2 (logistic_mappers_differ_in_defaults sample_config))).
  vm_compute. reflexivity.
Defined.
